(** * MERN-Forum: the forum controller (boards, threads, answers, likes)

    A shallow embedding of the request handlers of the forum controller
    (createBoard ... likeAnswer).  The MongoDB collections are finite maps
    from document ids to records, every handler is a state transformer on
    the three collections that also yields the HTTP response, and the
    Mongoose calls used by the handlers (findById, save, delete, deleteMany,
    updateOne with $inc) are small functions on those maps. *)

From Stdlib Require Import ZArith NArith String Ascii List Bool Lia.
From stdpp Require Import gmap strings list fin_maps.

Local Open Scope Z_scope.

(** ** JavaScript strings and values *)

(** A JavaScript string is a sequence of UTF-16 code units; [length],
    [trim] and [substring] all count code units. *)
Definition jsstring := list N.

(** A string literal of the source, one code unit per character. *)
Definition str (s : string) : jsstring :=
  List.map N_of_ascii (list_ascii_of_string s).

(** WhiteSpace and LineTerminator code points, the ones [trim] strips. *)
Definition is_ws (c : N) : bool :=
  ((9 <=? c) && (c <=? 13) || (c =? 32) || (c =? 160) || (c =? 5760)
   || (8192 <=? c) && (c <=? 8202) || (c =? 8232) || (c =? 8233)
   || (c =? 8239) || (c =? 8287) || (c =? 12288) || (c =? 65279))%N.

Fixpoint trimStart (s : jsstring) : jsstring :=
  match s with
  | c :: s' => if is_ws c then trimStart s' else s
  | [] => []
  end.

Definition trimEnd (s : jsstring) : jsstring := rev (trimStart (rev s)).

Definition trim (s : jsstring) : jsstring := trimEnd (trimStart s).

(** [s.trim() === ''] *)
Definition blank (s : jsstring) : bool := bool_decide (trim s = []).

(** [s.substring(a, b)] for non-negative integer arguments: both are
    clamped to the length and swapped when [a > b]. *)
Definition substring (s : jsstring) (a b : nat) : jsstring :=
  let a' := Nat.min a (length s) in
  let b' := Nat.min b (length s) in
  take (Nat.max a' b' - Nat.min a' b') (drop (Nat.min a' b') s).

(** The values a JSON request body can carry in a field.  A number is the
    exact rational [n / d]; [JObj] stands for any object or array. *)
Inductive jsval :=
  | JUndefined
  | JNull
  | JBool (b : bool)
  | JNum (n : Z) (d : positive)
  | JStr (s : jsstring)
  | JObj.

(** ToBoolean, so that [!v] is [negb (truthy v)]. *)
Definition truthy (v : jsval) : bool :=
  match v with
  | JUndefined | JNull => false
  | JBool b => b
  | JNum n _ => negb (n =? 0)
  | JStr s => negb (bool_decide (s = []))
  | JObj => true
  end.

(** [Number.isInteger(v)]: false for everything that is not a number. *)
Definition isInteger (v : jsval) : bool :=
  match v with
  | JNum n d => n mod Z.pos d =? 0
  | _ => false
  end.

(** [v < 0]; in the handlers it is only reached when [v] is an integer. *)
Definition lt0 (v : jsval) : bool :=
  match v with
  | JNum n _ => n <? 0
  | _ => false
  end.

(** The integer an integral number denotes. *)
Definition toInt (v : jsval) : Z :=
  match v with
  | JNum n d => n / Z.pos d
  | _ => 0
  end.

(** The number [n / d] is the integer [z]. *)
Definition is_integer_value (v : jsval) (z : Z) : Prop :=
  exists n d, v = JNum n d /\ n = z * Z.pos d.

(** ** Documents *)

(** Document ids and ISO timestamps are ASCII strings. *)
Abbreviation oid := string (only parsing).
Abbreviation timestamp := string (only parsing).

(** [{ file, type, size }] *)
Module Attach.
Record t := mk { file : jsstring; type : jsstring; size : Z }.
End Attach.

(** An uploaded file as multer hands it over in [req.files]. *)
Module File.
Record t := mk { filename : jsstring; mimetype : jsstring; size : Z }.
End File.

Module Board.
Record t := mk {
  name : jsstring;
  title : jsstring;
  body : jsval;
  position : Z;
  createdAt : timestamp;
  threadsCount : Z;
  answersCount : Z;
  newestThread : option timestamp;
  newestAnswer : option timestamp
}.
End Board.

Module Thread.
Record t := mk {
  boardId : oid;
  pined : bool;
  closed : bool;
  title : jsstring;
  body : jsstring;
  createdAt : timestamp;
  author : oid;
  edited : option timestamp;       (* null or { createdAt } *)
  likes : list oid;
  answersCount : Z;
  newestAnswer : timestamp;
  attach : option (list Attach.t)
}.
End Thread.

Module Answer.
Record t := mk {
  boardId : oid;
  threadId : oid;
  answeredTo : option oid;
  body : jsstring;
  createdAt : timestamp;
  author : oid;
  edited : option timestamp;
  likes : list oid;
  attach : option (list Attach.t)
}.
End Answer.

(** Modelled from the spec: the Mongoose schemas (models/Board,
    models/Thread, models/Answer) are not among the sources.  A field that a
    handler leaves out of [new Model({ ... })] takes its schema default: a
    counter starts at 0 (the spec has [answersCount:int>=0], counting the
    children), [likes] starts as the empty set, and [edited] and a board's
    [newestThread] and [newestAnswer] are unset. *)
Definition default_count : Z := 0.
Definition default_likes : list oid := [].
Definition unset {A} : option A := None.

(** The three collections. *)
Record db := Db {
  boards : gmap string Board.t;
  threads : gmap string Thread.t;
  answers : gmap string Answer.t
}.

Definition empty_db : db := Db ∅ ∅ ∅.

(** ** Requests and responses *)

(** [req.payload], put there by the authentication middleware. *)
Record payload := { payload_id : oid; payload_role : jsval }.

(** What a request brings besides its body: the caller, the clock reading
    of [new Date().toISOString()], the [_id] Mongoose generates for a
    document built with [new], the [BACKEND] environment variable, and what
    the multer upload produced. *)
Record ctx := {
  req_payload : payload;
  now : timestamp;
  new_id : oid;
  BACKEND : jsstring;
  upload_err : bool;
  req_files : list File.t
}.

Inductive json :=
  | JBoard (b : option Board.t)
  | JThread (t : option Thread.t)
  | JAnswer (a : option Answer.t)
  | JMessage (m : string).

Inductive response :=
  | Json (j : json)                    (* res.json(...) *)
  | BadRequest (msg : string)          (* next(createError.BadRequest(...)) *)
  | Unauthorized (msg : string)        (* next(createError.Unauthorized(...)) *)
  | InternalServerError                (* the catch branch *)
  | NoResponse.                        (* a rejection inside the upload callback *)

(** ** The handler monad: state, early [return next(...)], and exceptions *)

Inductive outcome (A : Type) :=
  | Ret (a : A)
  | Exit (r : response)
  | Thrown.
Arguments Ret {A} a.
Arguments Exit {A} r.
Arguments Thrown {A}.

Definition M (A : Type) := db -> outcome A * db.

Definition ret {A} (a : A) : M A := fun s => (Ret a, s).

Definition bind {A B} (m : M A) (k : A -> M B) : M B :=
  fun s => match m s with
           | (Ret a, s') => k a s'
           | (Exit r, s') => (Exit r, s')
           | (Thrown, s') => (Thrown, s')
           end.

Notation "'let*' x := m 'in' k" := (bind m (fun x => k))
  (at level 10, x name, m at level 100, k at level 200).

(** [return next(e)] *)
Definition next {A} (e : response) : M A := fun s => (Exit e, s).

(** [if (c) return next(e)] *)
Definition when_next (c : bool) (e : response) : M unit :=
  if c then next e else ret tt.

Definition throw {A} : M A := fun s => (Thrown, s).

(** Reading a property of what a query returned: a TypeError on [null]. *)
Definition deref {A} (o : option A) : M A :=
  match o with
  | Some a => ret a
  | None => throw
  end.

Definition gets {A} (f : db -> A) : M A := fun s => (Ret (f s), s).

Definition modify (f : db -> db) : M unit := fun s => (Ret tt, f s).

(** [try { ... res.json(j) } catch (err) { next(InternalServerError) }] *)
Definition try_catch (m : M json) : db -> response * db :=
  fun s => match m s with
           | (Ret j, s') => (Json j, s')
           | (Exit r, s') => (r, s')
           | (Thrown, s') => (InternalServerError, s')
           end.

(** [upload(req, res, async (err) => { ... })]: an upload error is handed
    to [next] as a BadRequest carrying multer's error.  The callback is an
    async function, so what it throws rejects its own promise and never
    reaches the enclosing [catch]; no response is sent. *)
Definition upload (c : ctx) (m : M json) : db -> response * db :=
  fun s =>
    if upload_err c then (BadRequest "upload", s)
    else match m s with
         | (Ret j, s') => (Json j, s')
         | (Exit r, s') => (r, s')
         | (Thrown, s') => (NoResponse, s')
         end.

(** ** Mongoose *)

(** An id field of a request body is absent or a string, and a string
    stands for the ObjectId it spells; the driver's check of the 24 hex
    digits is not modelled.

    [Model.findById(id)]: the document or [null]. *)
Definition findById {D} (coll : gmap string D) (i : option oid) : option D :=
  i ≫= (coll !!.).

(** [Model.updateOne({ _id: ObjectId(id) }, update)]: the update is applied
    to the matching document, if there is one. *)
Definition updateOne {D} (i : option oid) (update : D -> D)
    (coll : gmap string D) : gmap string D :=
  match i with
  | Some k => alter update k coll
  | None => coll
  end.

(** [new Model(...).save()]: an insert under the generated [_id]; the
    server rejects a duplicate key. *)
Definition save_new {D} (k : oid) (d : D) (coll : gmap string D)
    : option (gmap string D) :=
  match coll !! k with
  | Some _ => None
  | None => Some (<[k := d]> coll)
  end.

(** [!id] for an id field of the request body: absent or the empty string. *)
Definition missing (i : option oid) : bool :=
  match i with
  | Some s => bool_decide (s = ""%string)
  | None => true
  end.

(** [req.payload.role === 'admin'] *)
Definition is_admin (c : ctx) : bool :=
  match payload_role (req_payload c) with
  | JStr s => bool_decide (s = str "admin")
  | _ => false
  end.

(** The [files] of createThread and createAnswer. *)
Definition attachments (c : ctx) : option (list Attach.t) :=
  match req_files c with
  | [] => None
  | fs => Some (List.map (fun item =>
            {| Attach.file := BACKEND c ++ str "/forum/" ++ File.filename item;
               Attach.type := File.mimetype item;
               Attach.size := File.size item |}) fs)
  end.

(** ** Field updates, as the update documents of the handlers write them *)

Definition set_boards (f : gmap string Board.t -> gmap string Board.t) (s : db) : db :=
  Db (f (boards s)) (threads s) (answers s).

Definition set_threads (f : gmap string Thread.t -> gmap string Thread.t) (s : db) : db :=
  Db (boards s) (f (threads s)) (answers s).

Definition set_answers (f : gmap string Answer.t -> gmap string Answer.t) (s : db) : db :=
  Db (boards s) (threads s) (f (answers s)).

(** [{ name, title, body, position }] *)
Definition board_edit (name title : jsstring) (body : jsval) (position : Z)
    (b : Board.t) : Board.t :=
  Board.mk name title body position (Board.createdAt b)
    (Board.threadsCount b) (Board.answersCount b)
    (Board.newestThread b) (Board.newestAnswer b).

(** [{ $inc: { threadsCount: 1 }, newestThread: now }] *)
Definition board_thread_created (now : timestamp) (b : Board.t) : Board.t :=
  Board.mk (Board.name b) (Board.title b) (Board.body b) (Board.position b)
    (Board.createdAt b) (Board.threadsCount b + 1) (Board.answersCount b)
    (Some now) (Board.newestAnswer b).

(** [{ $inc: { threadsCount: -1 } }] *)
Definition board_thread_deleted (b : Board.t) : Board.t :=
  Board.mk (Board.name b) (Board.title b) (Board.body b) (Board.position b)
    (Board.createdAt b) (Board.threadsCount b + -1) (Board.answersCount b)
    (Board.newestThread b) (Board.newestAnswer b).

(** [{ $inc: { answersCount: 1 }, newestAnswer: now }] on a board *)
Definition board_answer_created (now : timestamp) (b : Board.t) : Board.t :=
  Board.mk (Board.name b) (Board.title b) (Board.body b) (Board.position b)
    (Board.createdAt b) (Board.threadsCount b) (Board.answersCount b + 1)
    (Board.newestThread b) (Some now).

(** [{ $inc: { answersCount: 1 }, newestAnswer: now }] on a thread *)
Definition thread_answer_created (now : timestamp) (t : Thread.t) : Thread.t :=
  Thread.mk (Thread.boardId t) (Thread.pined t) (Thread.closed t)
    (Thread.title t) (Thread.body t) (Thread.createdAt t) (Thread.author t)
    (Thread.edited t) (Thread.likes t) (Thread.answersCount t + 1) now
    (Thread.attach t).

(** [{ $inc: { answersCount: -1 } }] on a thread *)
Definition thread_answer_deleted (t : Thread.t) : Thread.t :=
  Thread.mk (Thread.boardId t) (Thread.pined t) (Thread.closed t)
    (Thread.title t) (Thread.body t) (Thread.createdAt t) (Thread.author t)
    (Thread.edited t) (Thread.likes t) (Thread.answersCount t + -1)
    (Thread.newestAnswer t) (Thread.attach t).

(** [{ title, body, closed, edited }] *)
Definition thread_edit (title body : jsstring) (closed : bool)
    (edited : option timestamp) (t : Thread.t) : Thread.t :=
  Thread.mk (Thread.boardId t) (Thread.pined t) closed title body
    (Thread.createdAt t) (Thread.author t) edited (Thread.likes t)
    (Thread.answersCount t) (Thread.newestAnswer t) (Thread.attach t).

(** [{ title, body, pined, closed, edited }] *)
Definition thread_admin_edit (title body : jsstring) (pined closed : bool)
    (edited : option timestamp) (t : Thread.t) : Thread.t :=
  Thread.mk (Thread.boardId t) pined closed title body
    (Thread.createdAt t) (Thread.author t) edited (Thread.likes t)
    (Thread.answersCount t) (Thread.newestAnswer t) (Thread.attach t).

(** The modified path [likes] that [thread.save()] writes back. *)
Definition thread_set_likes (l : list oid) (t : Thread.t) : Thread.t :=
  Thread.mk (Thread.boardId t) (Thread.pined t) (Thread.closed t)
    (Thread.title t) (Thread.body t) (Thread.createdAt t) (Thread.author t)
    (Thread.edited t) l (Thread.answersCount t) (Thread.newestAnswer t)
    (Thread.attach t).

(** [{ body, edited: { createdAt } }] *)
Definition answer_edit (body : jsstring) (edited : option timestamp)
    (a : Answer.t) : Answer.t :=
  Answer.mk (Answer.boardId a) (Answer.threadId a) (Answer.answeredTo a) body
    (Answer.createdAt a) (Answer.author a) edited (Answer.likes a)
    (Answer.attach a).

Definition answer_set_likes (l : list oid) (a : Answer.t) : Answer.t :=
  Answer.mk (Answer.boardId a) (Answer.threadId a) (Answer.answeredTo a)
    (Answer.body a) (Answer.createdAt a) (Answer.author a) (Answer.edited a)
    l (Answer.attach a).

(** [doc.delete()] of the document fetched under id [i]. *)
Definition delete_doc {D} (i : option oid) (coll : gmap string D) : gmap string D :=
  match i with
  | Some k => delete k coll
  | None => coll
  end.

(** [Answer.deleteMany({ threadId })] *)
Definition deleteMany_threadId (i : option oid)
    (coll : gmap string Answer.t) : gmap string Answer.t :=
  filter (fun ka => Some (Answer.threadId ka.2) ≠ i) coll.

(** [await newDoc.save()] in each collection. *)
Definition save_board (k : oid) (d : Board.t) : M Board.t :=
  fun s => match save_new k d (boards s) with
           | Some m => (Ret d, set_boards (fun _ => m) s)
           | None => (Thrown, s)
           end.

Definition save_thread (k : oid) (d : Thread.t) : M Thread.t :=
  fun s => match save_new k d (threads s) with
           | Some m => (Ret d, set_threads (fun _ => m) s)
           | None => (Thrown, s)
           end.

Definition save_answer (k : oid) (d : Answer.t) : M Answer.t :=
  fun s => match save_new k d (answers s) with
           | Some m => (Ret d, set_answers (fun _ => m) s)
           | None => (Thrown, s)
           end.

(** The like toggle written out in likeThread and likeAnswer:
    [likes.find(like => like.toString() === req.payload.id)] decides between
    [likes.filter(like => like.toString() !== req.payload.id)] and
    [likes.push(req.payload.id)]. *)
Definition toggle (uid : oid) (likes : list oid) : list oid :=
  match List.find (fun like => bool_decide (like = uid)) likes with
  | Some _ => filter (fun like => like ≠ uid) likes
  | None => likes ++ [uid]
  end.

(** ** The handlers *)

Definition createBoard (c : ctx) (name title : jsstring) (body position : jsval)
    : db -> response * db :=
  try_catch (
    let* _ := when_next (negb (is_admin c)) (Unauthorized "Action not allowed") in
    let* _ := when_next (blank name) (BadRequest "Board name must not be empty") in
    let* _ := when_next (blank title) (BadRequest "Board title must not be empty") in
    let* _ := when_next (negb (truthy position) || negb (isInteger position) || lt0 position)
                (BadRequest "Position must be number") in
    let newBoard :=
      Board.mk name title body (toInt position) (now c) 0 0 unset unset in
    let* board := save_board (new_id c) newBoard in
    ret (JBoard (Some board))).

Definition deleteBoard (c : ctx) (boardId : option oid) : db -> response * db :=
  try_catch (
    let* _ := when_next (negb (is_admin c)) (Unauthorized "Action not allowed") in
    let* _ := when_next (missing boardId) (BadRequest "boardId must not be empty") in
    let* found := gets (fun s => findById (boards s) boardId) in
    let* _ := deref found in
    let* _ := modify (set_boards (delete_doc boardId)) in
    ret (JMessage "Board successfully deleted")).

Definition editBoard (c : ctx) (boardId : option oid) (name title : jsstring)
    (body position : jsval) : db -> response * db :=
  try_catch (
    let* _ := when_next (negb (is_admin c)) (Unauthorized "Action not allowed") in
    let* _ := when_next (blank name) (BadRequest "Board name must not be empty") in
    let* _ := when_next (blank title) (BadRequest "Board title must not be empty") in
    let* _ := when_next (negb (truthy position) || negb (isInteger position) || lt0 position)
                (BadRequest "Position must be number") in
    let* _ := modify (set_boards
                (updateOne boardId (board_edit name title body (toInt position)))) in
    let* board := gets (fun s => findById (boards s) boardId) in
    ret (JBoard board)).

Definition createThread (c : ctx) (boardId : option oid) (title body : jsstring)
    : db -> response * db :=
  upload c (
    let* _ := when_next (missing boardId) (BadRequest "boardId must not be empty") in
    let* _ := when_next (blank title) (BadRequest "Thread title must not be empty") in
    let* _ := when_next (blank body) (BadRequest "Thread body must not be empty") in
    let files := attachments c in
    let* bid := deref boardId in
    let newThread :=
      Thread.mk bid false false (substring title 0 100) (substring body 0 1000)
        (now c) (payload_id (req_payload c)) unset default_likes default_count
        (now c) files in
    let* thread := save_thread (new_id c) newThread in
    let* _ := modify (set_boards (updateOne boardId (board_thread_created (now c)))) in
    ret (JThread (Some thread))).

Definition deleteThread (c : ctx) (threadId : option oid) : db -> response * db :=
  try_catch (
    let* _ := when_next (negb (is_admin c)) (Unauthorized "Action not allowed") in
    let* _ := when_next (missing threadId) (BadRequest "threadId must not be empty") in
    let* found := gets (fun s => findById (threads s) threadId) in
    let* thread := deref found in
    let* _ := modify (set_threads (delete_doc threadId)) in
    let* _ := modify (set_answers (deleteMany_threadId threadId)) in
    let* _ := modify (set_boards
                (updateOne (Some (Thread.boardId thread)) board_thread_deleted)) in
    ret (JMessage "Thread successfully deleted")).

Definition editThread (c : ctx) (threadId : option oid) (title body : jsstring)
    (closed : option bool) : db -> response * db :=
  try_catch (
    let* _ := when_next (blank title) (BadRequest "Board title must not be empty") in
    let* _ := when_next (blank body) (BadRequest "Thread body must not be empty") in
    let* found := gets (fun s => findById (threads s) threadId) in
    let* thread := deref found in
    let* _ := when_next
                (negb (bool_decide (payload_id (req_payload c) = Thread.author thread)))
                (Unauthorized "Action not allowed") in
    let* _ := modify (set_threads (updateOne threadId
                (thread_edit (substring title 0 100) (substring body 0 1000)
                   (match closed with None => Thread.closed thread | Some b => b end)
                   (match closed with None => Some (now c) | Some _ => None end)))) in
    let* editedThread := gets (fun s => findById (threads s) threadId) in
    ret (JThread editedThread)).

Definition adminEditThread (c : ctx) (threadId : option oid) (title body : jsstring)
    (pined closed : option bool) : db -> response * db :=
  try_catch (
    let* _ := when_next (negb (is_admin c)) (Unauthorized "Action not allowed") in
    let* _ := when_next (blank title) (BadRequest "Board title must not be empty") in
    let* _ := when_next (blank body) (BadRequest "Thread body must not be empty") in
    let* thread := gets (fun s => findById (threads s) threadId) in
    let* pined' := match pined with
                   | None => let* t := deref thread in ret (Thread.pined t)
                   | Some b => ret b
                   end in
    let* closed' := match closed with
                    | None => let* t := deref thread in ret (Thread.closed t)
                    | Some b => ret b
                    end in
    let* _ := modify (set_threads (updateOne threadId
                (thread_admin_edit (substring title 0 100) (substring body 0 1000)
                   pined' closed'
                   (match pined, closed with
                    | None, None => Some (now c)
                    | _, _ => None
                    end)))) in
    let* editedThread := gets (fun s => findById (threads s) threadId) in
    ret (JThread editedThread)).

Definition likeThread (c : ctx) (threadId : option oid) : db -> response * db :=
  try_catch (
    let* _ := when_next (missing threadId) (BadRequest "threadId must not be empty") in
    let* found := gets (fun s => findById (threads s) threadId) in
    let* thread := deref found in
    let likes' := toggle (payload_id (req_payload c)) (Thread.likes thread) in
    let* _ := modify (set_threads (updateOne threadId (thread_set_likes likes'))) in
    let* likedThread := gets (fun s => findById (threads s) threadId) in
    ret (JThread likedThread)).

Definition createAnswer (c : ctx) (threadId answeredTo : option oid) (body : jsstring)
    : db -> response * db :=
  upload c (
    let* _ := when_next (missing threadId) (BadRequest "threadId must not be empty") in
    let* _ := when_next (blank body) (BadRequest "Answer body must not be empty") in
    let* found := gets (fun s => findById (threads s) threadId) in
    let files := attachments c in
    let* thread := deref found in
    let* tid := deref threadId in
    let newAnswer :=
      Answer.mk (Thread.boardId thread) tid answeredTo (substring body 0 1000)
        (now c) (payload_id (req_payload c)) unset default_likes files in
    let* answer := save_answer (new_id c) newAnswer in
    let* _ := modify (set_boards
                (updateOne (Some (Thread.boardId thread)) (board_answer_created (now c)))) in
    let* _ := modify (set_threads (updateOne threadId (thread_answer_created (now c)))) in
    ret (JAnswer (Some answer))).

Definition deleteAnswer (c : ctx) (answerId : option oid) : db -> response * db :=
  try_catch (
    let* _ := when_next (negb (is_admin c)) (Unauthorized "Action not allowed") in
    let* _ := when_next (missing answerId) (BadRequest "answerId must not be empty") in
    let* found := gets (fun s => findById (answers s) answerId) in
    let* answer := deref found in
    let* _ := modify (set_answers (delete_doc answerId)) in
    let* _ := modify (set_threads
                (updateOne (Some (Answer.threadId answer)) thread_answer_deleted)) in
    ret (JMessage "Answer successfully deleted")).

Definition editAnswer (c : ctx) (answerId : option oid) (body : jsstring)
    : db -> response * db :=
  try_catch (
    let* _ := when_next (blank body) (BadRequest "Answer body must not be empty") in
    let* found := gets (fun s => findById (answers s) answerId) in
    let* answer := deref found in
    let* _ := when_next
                (negb (bool_decide (payload_id (req_payload c) = Answer.author answer)))
                (Unauthorized "Action not allowed") in
    let* _ := modify (set_answers (updateOne answerId
                (answer_edit (substring body 0 1000) (Some (now c))))) in
    let* editedanswer := gets (fun s => findById (answers s) answerId) in
    ret (JAnswer editedanswer)).

Definition likeAnswer (c : ctx) (answerId : option oid) : db -> response * db :=
  try_catch (
    let* _ := when_next (missing answerId) (BadRequest "answerId must not be empty") in
    let* found := gets (fun s => findById (answers s) answerId) in
    let* answer := deref found in
    let likes' := toggle (payload_id (req_payload c)) (Answer.likes answer) in
    let* _ := modify (set_answers (updateOne answerId (answer_set_likes likes'))) in
    let* likedAnswer := gets (fun s => findById (answers s) answerId) in
    ret (JAnswer likedAnswer)).

(** ** Requests as data, and runs of the store *)

(** One constructor per mutating route, with the fields the handler reads
    off the request body.  Bodies are taken as the client sends them: names,
    titles and bodies of posts are strings, an id is absent or a string, a
    moderation flag is absent ([undefined]) or a boolean; [position] and the
    board's [body] are any JSON value. *)
Inductive mutation :=
  | CreateBoard (name title : jsstring) (body position : jsval)
  | DeleteBoard (boardId : option oid)
  | EditBoard (boardId : option oid) (name title : jsstring) (body position : jsval)
  | CreateThread (boardId : option oid) (title body : jsstring)
  | DeleteThread (threadId : option oid)
  | EditThread (threadId : option oid) (title body : jsstring) (closed : option bool)
  | AdminEditThread (threadId : option oid) (title body : jsstring)
      (pined closed : option bool)
  | LikeThread (threadId : option oid)
  | CreateAnswer (threadId answeredTo : option oid) (body : jsstring)
  | DeleteAnswer (answerId : option oid)
  | EditAnswer (answerId : option oid) (body : jsstring)
  | LikeAnswer (answerId : option oid).

Definition handle (c : ctx) (m : mutation) : db -> response * db :=
  match m with
  | CreateBoard name title body position => createBoard c name title body position
  | DeleteBoard boardId => deleteBoard c boardId
  | EditBoard boardId name title body position =>
      editBoard c boardId name title body position
  | CreateThread boardId title body => createThread c boardId title body
  | DeleteThread threadId => deleteThread c threadId
  | EditThread threadId title body closed => editThread c threadId title body closed
  | AdminEditThread threadId title body pined closed =>
      adminEditThread c threadId title body pined closed
  | LikeThread threadId => likeThread c threadId
  | CreateAnswer threadId answeredTo body => createAnswer c threadId answeredTo body
  | DeleteAnswer answerId => deleteAnswer c answerId
  | EditAnswer answerId body => editAnswer c answerId body
  | LikeAnswer answerId => likeAnswer c answerId
  end.

(** The store after a sequence of requests, each settled before the next. *)
Fixpoint run (reqs : list (ctx * mutation)) (s : db) : db :=
  match reqs with
  | [] => s
  | (c, m) :: reqs' => run reqs' (handle c m s).2
  end.

(** The states the handlers can bring an empty store to. *)
Definition reachable (s : db) : Prop := exists reqs, run reqs empty_db = s.

(** A validation or authorization failure. *)
Definition rejected (r : response) : bool :=
  match r with
  | BadRequest _ | Unauthorized _ => true
  | _ => false
  end.

(** ** The counters against the documents they count *)

(** How many documents of a collection sit under the parent [k]. *)
Definition count_under {D} (parent : D -> oid) (k : oid) (coll : gmap string D) : nat :=
  size (filter (fun kd => parent kd.2 = k) coll).

Definition count_thread_answers (s : db) (threadId : oid) : Z :=
  Z.of_nat (count_under Answer.threadId threadId (answers s)).

Definition count_board_answers (s : db) (boardId : oid) : Z :=
  Z.of_nat (count_under Answer.boardId boardId (answers s)).

Definition count_board_threads (s : db) (boardId : oid) : Z :=
  Z.of_nat (count_under Thread.boardId boardId (threads s)).

(** [Thread.answersCount] agrees with the answers under the thread. *)
Definition thread_counters_ok (s : db) : Prop :=
  forall k t, threads s !! k = Some t ->
    Thread.answersCount t = count_thread_answers s k.

(** [Board.answersCount] agrees with the answers under the board. *)
Definition board_counters_ok (s : db) : Prop :=
  forall k b, boards s !! k = Some b ->
    Board.answersCount b = count_board_answers s k.

(** Every field of a thread but [likes]. *)
Definition thread_frame (t t' : Thread.t) : Prop :=
  Thread.boardId t' = Thread.boardId t /\ Thread.pined t' = Thread.pined t /\
  Thread.closed t' = Thread.closed t /\ Thread.title t' = Thread.title t /\
  Thread.body t' = Thread.body t /\ Thread.createdAt t' = Thread.createdAt t /\
  Thread.author t' = Thread.author t /\ Thread.edited t' = Thread.edited t /\
  Thread.answersCount t' = Thread.answersCount t /\
  Thread.newestAnswer t' = Thread.newestAnswer t /\
  Thread.attach t' = Thread.attach t.

(** Every field of an answer but [likes]. *)
Definition answer_frame (a a' : Answer.t) : Prop :=
  Answer.boardId a' = Answer.boardId a /\ Answer.threadId a' = Answer.threadId a /\
  Answer.answeredTo a' = Answer.answeredTo a /\ Answer.body a' = Answer.body a /\
  Answer.createdAt a' = Answer.createdAt a /\ Answer.author a' = Answer.author a /\
  Answer.edited a' = Answer.edited a /\ Answer.attach a' = Answer.attach a.

(** The moderation flags of a thread set to given values. *)
Definition thread_set_flags (pined closed : bool) (t : Thread.t) : Thread.t :=
  Thread.mk (Thread.boardId t) pined closed (Thread.title t) (Thread.body t)
    (Thread.createdAt t) (Thread.author t) (Thread.edited t) (Thread.likes t)
    (Thread.answersCount t) (Thread.newestAnswer t) (Thread.attach t).

(** No answer without its thread. *)
Definition answers_have_threads (s : db) : Prop :=
  forall k a, answers s !! k = Some a -> is_Some (threads s !! Answer.threadId a).

(** The invariant behind the thread counters. *)
Definition thread_inv (s : db) : Prop :=
  thread_counters_ok s /\ answers_have_threads s.

(** The shapes in which a request can leave the threads and the answers. *)
Inductive effect (s : db) : gmap string Thread.t -> gmap string Answer.t -> Prop :=
  | effect_none : effect s (threads s) (answers s)
  | effect_edit_thread k f :
      (forall t, Thread.answersCount (f t) = Thread.answersCount t) ->
      effect s (alter f k (threads s)) (answers s)
  | effect_edit_answer k f :
      (forall a, Answer.threadId (f a) = Answer.threadId a) ->
      effect s (threads s) (alter f k (answers s))
  | effect_create_thread k t :
      threads s !! k = None -> Thread.answersCount t = 0 ->
      effect s (<[k := t]> (threads s)) (answers s)
  | effect_delete_thread k :
      effect s (delete k (threads s)) (deleteMany_threadId (Some k) (answers s))
  | effect_create_answer k a t now :
      answers s !! k = None -> threads s !! Answer.threadId a = Some t ->
      effect s (alter (thread_answer_created now) (Answer.threadId a) (threads s))
        (<[k := a]> (answers s))
  | effect_delete_answer k a :
      answers s !! k = Some a ->
      effect s (alter thread_answer_deleted (Answer.threadId a) (threads s))
        (delete k (answers s)).

(** ** Like toggles that overlap

    Every [await] of a handler is a point at which another request can
    run.  likeThread and likeAnswer await three times: [findById], [save]
    and the closing [findById(...).populate(...)].  Between the first two
    the handler holds the document it read, with [likes] already changed in
    memory. *)

Inductive entity := InThread | InAnswer.

(** How [likes] was changed in memory: by [likes.push(id)], or by assigning
    the filtered array. *)
Inductive change := Pushed (u : oid) | Assigned.

(** What [save()] sends for the changed array is decided inside Mongoose:
    the array as it stands in memory, or, after a push, only the pushed
    element, which the server appends to what it holds by then.  Both
    readings are covered. *)
Inductive save_mode := WholeArray | PushedElement.

Definition written (mode : save_mode) (ch : change) (likes' stored : list oid)
    : list oid :=
  match mode, ch with
  | PushedElement, Pushed u => stored ++ [u]
  | _, _ => likes'
  end.

(** A like request on its way through the handler. *)
Inductive task :=
  | Start (c : ctx) (i : option oid)
  | Fetched (c : ctx) (i : option oid) (likes' : list oid) (ch : change)
  | Saved (i : option oid)
  | Finished (r : response).

Definition stored_likes (e : entity) (s : db) (i : option oid) : option (list oid) :=
  match e with
  | InThread => Thread.likes <$> findById (threads s) i
  | InAnswer => Answer.likes <$> findById (answers s) i
  end.

Definition write_likes (e : entity) (i : option oid)
    (f : list oid -> list oid) (s : db) : db :=
  match e with
  | InThread =>
      set_threads (updateOne i (fun t => thread_set_likes (f (Thread.likes t)) t)) s
  | InAnswer =>
      set_answers (updateOne i (fun a => answer_set_likes (f (Answer.likes a)) a)) s
  end.

Definition refetched (e : entity) (s : db) (i : option oid) : json :=
  match e with
  | InThread => JThread (findById (threads s) i)
  | InAnswer => JAnswer (findById (answers s) i)
  end.

Definition missing_id (e : entity) : response :=
  match e with
  | InThread => BadRequest "threadId must not be empty"
  | InAnswer => BadRequest "answerId must not be empty"
  end.

(** The handler from one [await] to the next. *)
Definition step (mode : save_mode) (e : entity) (t : task) (s : db) : task * db :=
  match t with
  | Start c i =>
      if missing i then (Finished (missing_id e), s)
      else match stored_likes e s i with
           | None => (Finished InternalServerError, s)
           | Some likes =>
               let u := payload_id (req_payload c) in
               match List.find (fun like => bool_decide (like = u)) likes with
               | Some _ => (Fetched c i (filter (fun like => like ≠ u) likes) Assigned, s)
               | None => (Fetched c i (likes ++ [u]) (Pushed u), s)
               end
           end
  | Fetched c i likes' ch =>
      match stored_likes e s i with
      | None => (Finished InternalServerError, s)   (* deleted meanwhile: save rejects *)
      | Some _ => (Saved i, write_likes e i (written mode ch likes') s)
      end
  | Saved i => (Finished (Json (refetched e s i)), s)
  | Finished r => (Finished r, s)
  end.

(** Two requests in flight; the schedule says which of them runs next
    ([true] for the first). *)
Fixpoint exec (mode : save_mode) (e : entity) (sched : list bool)
    (cfg : task * task * db) : task * task * db :=
  match sched with
  | [] => cfg
  | first :: sched' =>
      let '(p, q, s) := cfg in
      if first
      then let '(p', s') := step mode e p s in exec mode e sched' (p', q, s')
      else let '(q', s') := step mode e q s in exec mode e sched' (p, q', s')
  end.

(** One request run through its three awaits with nothing in between. *)
Definition settle (mode : save_mode) (e : entity) (t : task) (s : db) : task * db :=
  let '(t1, s1) := step mode e t s in
  let '(t2, s2) := step mode e t1 s1 in
  step mode e t2 s2.

(** The first request settles before the second starts. *)
Definition one_after_the_other : list bool := [true; true; true; false; false; false].

(** Both requests read before either saves. *)
Definition overlapping : list bool := [true; false; true; false; true; false].

(** The handler behind each kind of entity. *)
Definition like (e : entity) : ctx -> option oid -> db -> response * db :=
  match e with
  | InThread => likeThread
  | InAnswer => likeAnswer
  end.

(** ** What one request can do to one document

    The ways in which the document stored under a given id can differ
    before and after a request of caller [c], whatever the request is. *)

Inductive thread_change (c : ctx) : option Thread.t -> option Thread.t -> Prop :=
  | thread_same o : thread_change c o o
  | thread_created boardId title body :
      thread_change c None
        (Some (Thread.mk boardId false false (substring title 0 100)
                 (substring body 0 1000) (now c) (payload_id (req_payload c))
                 None [] 0 (now c) (attachments c)))
  | thread_deleted t :
      is_admin c = true -> thread_change c (Some t) None
  | thread_edited t title body closed edited :
      payload_id (req_payload c) = Thread.author t ->
      thread_change c (Some t)
        (Some (thread_edit (substring title 0 100) (substring body 0 1000)
                 closed edited t))
  | thread_admin_edited t title body pined closed edited :
      is_admin c = true ->
      thread_change c (Some t)
        (Some (thread_admin_edit (substring title 0 100) (substring body 0 1000)
                 pined closed edited t))
  | thread_liked t :
      thread_change c (Some t)
        (Some (thread_set_likes (toggle (payload_id (req_payload c)) (Thread.likes t)) t))
  | thread_answered t :
      thread_change c (Some t) (Some (thread_answer_created (now c) t))
  | thread_unanswered t :
      is_admin c = true ->
      thread_change c (Some t) (Some (thread_answer_deleted t)).

Inductive answer_change (c : ctx) : option Answer.t -> option Answer.t -> Prop :=
  | answer_same o : answer_change c o o
  | answer_created boardId threadId answeredTo body :
      answer_change c None
        (Some (Answer.mk boardId threadId answeredTo (substring body 0 1000) (now c)
                 (payload_id (req_payload c)) None [] (attachments c)))
  | answer_deleted a :
      is_admin c = true -> answer_change c (Some a) None
  | answer_edited a body :
      payload_id (req_payload c) = Answer.author a ->
      answer_change c (Some a)
        (Some (answer_edit (substring body 0 1000) (Some (now c)) a))
  | answer_liked a :
      answer_change c (Some a)
        (Some (answer_set_likes (toggle (payload_id (req_payload c)) (Answer.likes a)) a)).

Inductive board_change (c : ctx) : option Board.t -> option Board.t -> Prop :=
  | board_same o : board_change c o o
  | board_created name title body position :
      is_admin c = true ->
      board_change c None
        (Some (Board.mk name title body position (now c) 0 0 None None))
  | board_deleted b :
      is_admin c = true -> board_change c (Some b) None
  | board_edited b name title body position :
      is_admin c = true ->
      board_change c (Some b) (Some (board_edit name title body position b))
  | board_gained_thread b :
      board_change c (Some b) (Some (board_thread_created (now c) b))
  | board_lost_thread b :
      is_admin c = true ->
      board_change c (Some b) (Some (board_thread_deleted b))
  | board_gained_answer b :
      board_change c (Some b) (Some (board_answer_created (now c) b)).

(** ** A small forum to evaluate the handlers on *)

Module Demo.
Definition admin : payload :=
  {| payload_id := "5f00000000000000000000a0"; payload_role := JStr (str "admin") |}.
Definition alice : payload :=
  {| payload_id := "5f00000000000000000000a1"; payload_role := JStr (str "user") |}.
Definition bob : payload :=
  {| payload_id := "5f00000000000000000000a2"; payload_role := JStr (str "user") |}.

Definition request (p : payload) (t i : string) : ctx :=
  {| req_payload := p; now := t; new_id := i;
     BACKEND := str "http://localhost:8000"; upload_err := false; req_files := [] |}.

Definition b1 : oid := "5f00000000000000000000b1".
Definition t1 : oid := "5f00000000000000000000c1".
Definition a1 : oid := "5f00000000000000000000d1".

(** The end-to-end scenario: a moderator opens the board General, alice
    starts a thread in it and bob answers. *)
Definition scenario : list (ctx * mutation) :=
  [ (request admin "2021-01-01T10:00:00.000Z" b1,
     CreateBoard (str "general") (str "General") JUndefined (JNum 1 1));
    (request alice "2021-01-01T10:01:00.000Z" t1,
     CreateThread (Some b1) (str "Hi") (str "Hello"));
    (request bob "2021-01-01T10:02:00.000Z" a1,
     CreateAnswer (Some t1) None (str "Reply")) ].

Definition forum : db := Eval vm_compute in run scenario empty_db.

Definition the_board : Board.t :=
  Board.mk (str "general") (str "General") JUndefined 1
    "2021-01-01T10:00:00.000Z" 1 1
    (Some "2021-01-01T10:01:00.000Z"%string) (Some "2021-01-01T10:02:00.000Z"%string).

Definition the_thread : Thread.t :=
  Thread.mk b1 false false (str "Hi") (str "Hello") "2021-01-01T10:01:00.000Z"
    (payload_id alice) None [] 1 "2021-01-01T10:02:00.000Z" None.

Definition the_answer : Answer.t :=
  Answer.mk b1 t1 None (str "Reply") "2021-01-01T10:02:00.000Z"
    (payload_id bob) None [] None.

(** The scenario followed by a moderator deleting the answer, and by a
    moderator deleting the thread. *)
Definition moderator : ctx := request admin "2021-01-01T10:15:00.000Z" "".

Definition after_deleteAnswer : db :=
  run (scenario ++ [(moderator, DeleteAnswer (Some a1))]) empty_db.

Definition after_deleteThread : db :=
  run (scenario ++ [(moderator, DeleteThread (Some t1))]) empty_db.

(** bob sends the like request for the thread twice, and for the answer
    twice. *)
Definition bob_likes : ctx := request bob "2021-01-01T10:03:00.000Z" "".

Definition two_thread_likes : task * task * db :=
  (Start bob_likes (Some t1), Start bob_likes (Some t1), forum).

Definition two_answer_likes : task * task * db :=
  (Start bob_likes (Some a1), Start bob_likes (Some a1), forum).

(** The same thread, closed by a moderator. *)
Definition closed_forum : db :=
  set_threads (insert t1 (thread_set_flags false true the_thread)) forum.
End Demo.

(** ** Attachments as the source folds them *)


(** ** Reading a thread *)

(** [Board.findById(...).select('_id name title')] *)
Record board_head := { head_id : oid; head_name : jsstring; head_title : jsstring }.

Definition select_head (k : oid) (b : Board.t) : board_head :=
  {| head_id := k; head_name := Board.name b; head_title := Board.title b |}.

(** What getThread sends: [res.json({ board, thread })] or an error. *)
Inductive thread_reply :=
  | ThreadPage (board : option board_head) (thread : Thread.t)
  | ThreadError (r : response).

(** getThread; the thread goes out as stored (filling in [author] and
    [likes] from the user collection is left out). *)
Definition getThread (threadId : option oid) (s : db) : thread_reply :=
  if missing threadId then ThreadError (BadRequest "threadId must not be empty")
  else match findById (threads s) threadId with
       | None => ThreadError InternalServerError      (* thread.boardId on null *)
       | Some thread =>
           ThreadPage (select_head (Thread.boardId thread)
                         <$> boards s !! Thread.boardId thread) thread
       end.

(** ** More states to evaluate on *)

Module Tour.
(** The scenario, then bob and alice like the thread and bob the answer. *)
Definition likes : list (ctx * mutation) :=
  Demo.scenario ++
  [ (Demo.bob_likes, LikeThread (Some Demo.t1));
    (Demo.request Demo.alice "2021-01-01T10:04:00.000Z" "", LikeThread (Some Demo.t1));
    (Demo.bob_likes, LikeAnswer (Some Demo.a1)) ].


Definition t2 : oid := "5f00000000000000000000c2".

(** The scenario, then a thread whose title and body are over the caps. *)
Definition long_posts : list (ctx * mutation) :=
  Demo.scenario ++
  [ (Demo.request Demo.bob "2021-01-01T10:05:00.000Z" t2,
     CreateThread (Some Demo.b1) (repeat 97%N 150) (repeat 98%N 1500)) ].

Definition capped : db := Eval vm_compute in run long_posts empty_db.

End Tour.

(** * Properties *)

(** ** Running a handler *)

Ltac run_handler :=
  cbv [handle createBoard deleteBoard editBoard createThread deleteThread
       editThread adminEditThread likeThread createAnswer deleteAnswer
       editAnswer likeAnswer try_catch upload bind when_next gets modify
       deref next ret throw save_board save_thread save_answer save_new
       findById mbind option_bind].

(** Case analysis on the checks and lookups a handler goes through. *)
Ltac split_guards :=
  repeat match goal with
         | |- context [if ?b then _ else _] => destruct b eqn:?; simpl; try done
         | |- context [match ?o with Some _ => _ | None => _ end] =>
             destruct o eqn:?; simpl; try done
         end.

(** A lookup that succeeded was given an id. *)
Ltac known_id :=
  repeat match goal with
         | H : match ?i with Some _ => _ | None => None end = Some _ |- _ =>
             destruct i; [|discriminate H]
         end.

(** Tactics for the case analyses over all handlers. *)
Ltac guard_facts :=
  repeat match goal with
         | H : negb _ = false |- _ => apply negb_false_iff in H
         | H : bool_decide _ = true |- _ => apply bool_decide_eq_true in H
         end.

Lemma lookup_alter_change {D} (R : option D -> option D -> Prop) f k j
    (m : gmap string D) :
  (forall o, R o o) -> (forall d, m !! k = Some d -> R (Some d) (Some (f d))) ->
  R (m !! j) (alter f k m !! j).
Proof.
  intros Hrefl Hf. destruct (decide (k = j)) as [->|Hne].
  - rewrite lookup_alter_eq. destruct (m !! j) eqn:Hj; simpl; auto.
  - by rewrite lookup_alter_ne.
Qed.

Ltac alter_leaf same :=
  try match goal with
      | |- _ _ _ (match ?i with Some _ => _ | None => _ end !! _) =>
          destruct i; [|apply same]
      end;
  try (apply lookup_alter_change;
       [apply same | intros ? ?; simplify_eq; by econstructor]).

Ltac board_lookup :=
  match goal with
  | Hb : boards _ !! ?k = Some _, Hb' : alter _ ?k0 _ !! ?k = Some _ |- _ =>
      destruct (decide (k0 = k)) as [Heq|?];
      [rewrite Heq in *; rewrite lookup_alter_eq, Hb in Hb'
      | rewrite lookup_alter_ne in Hb' by done]
  | Hb : boards _ !! ?k = Some _, Hb' : <[?k0 := _]> _ !! ?k = Some _ |- _ =>
      destruct (decide (k0 = k)) as [Heq|?];
      [rewrite Heq in *; congruence | rewrite lookup_insert_ne in Hb' by done]
  | Hb : boards _ !! ?k = Some _, Hb' : delete ?k0 _ !! ?k = Some _ |- _ =>
      destruct (decide (k0 = k)) as [Heq|?];
      [rewrite Heq in *; by rewrite lookup_delete_eq in Hb'
      | rewrite lookup_delete_ne in Hb' by done]
  end.

Example demo_forum_lookups :
  boards Demo.forum !! Demo.b1 = Some Demo.the_board /\
  threads Demo.forum !! Demo.t1 = Some Demo.the_thread /\
  answers Demo.forum !! Demo.a1 = Some Demo.the_answer.
Proof. vm_compute. auto. Qed.

(** ** The like toggle *)

Lemma toggle_present uid likes :
  uid ∈ likes -> toggle uid likes = filter (fun like => like ≠ uid) likes.
Proof.
  intros Hin. unfold toggle.
  destruct (List.find _ likes) eqn:E; [reflexivity|].
  apply list_elem_of_In in Hin.
  apply (List.find_none _ _ E) in Hin.
  apply bool_decide_eq_false in Hin. congruence.
Qed.

Lemma toggle_absent uid likes :
  uid ∉ likes -> toggle uid likes = likes ++ [uid].
Proof.
  intros Hout. unfold toggle.
  destruct (List.find _ likes) as [x|] eqn:E; [|reflexivity].
  apply List.find_some in E as [Hx Heq].
  apply bool_decide_eq_true in Heq. subst x.
  apply list_elem_of_In in Hx. contradiction.
Qed.

Lemma toggle_self uid likes : uid ∈ toggle uid likes <-> uid ∉ likes.
Proof.
  destruct (decide (uid ∈ likes)) as [Hin|Hout].
  - rewrite toggle_present by assumption. rewrite list_elem_of_filter. tauto.
  - rewrite toggle_absent by assumption. rewrite elem_of_app, list_elem_of_singleton. tauto.
Qed.

Lemma toggle_other uid v likes : v ≠ uid -> v ∈ toggle uid likes <-> v ∈ likes.
Proof.
  intros Hne. destruct (decide (uid ∈ likes)) as [Hin|Hout].
  - rewrite toggle_present by assumption. rewrite list_elem_of_filter. tauto.
  - rewrite toggle_absent by assumption. rewrite elem_of_app, list_elem_of_singleton. tauto.
Qed.

Lemma missing_false k : k ≠ ""%string -> missing (Some k) = false.
Proof. intros H. unfold missing. by apply bool_decide_eq_false. Qed.

Lemma likeThread_run c k s t :
  k ≠ ""%string -> threads s !! k = Some t ->
  let t' := thread_set_likes (toggle (payload_id (req_payload c)) (Thread.likes t)) t in
  likeThread c (Some k) s = (Json (JThread (Some t')), set_threads (insert k t') s).
Proof.
  intros Hk Ht t'. run_handler. rewrite (missing_false k Hk). simpl.
  rewrite Ht. simpl. rewrite lookup_alter_eq, Ht. simpl.
  f_equal. unfold set_threads. simpl. f_equal.
  apply map_eq. intros j. destruct (decide (k = j)) as [->|Hne].
  - by rewrite lookup_alter_eq, lookup_insert_eq, Ht.
  - by rewrite lookup_alter_ne, lookup_insert_ne.
Qed.

Lemma alter_present {D} (f : D -> D) (k : string) (m : gmap string D) x :
  m !! k = Some x -> alter f k m = <[k := f x]> m.
Proof.
  intros Hx. apply map_eq. intros j. destruct (decide (k = j)) as [->|Hne].
  - by rewrite lookup_alter_eq, lookup_insert_eq, Hx.
  - by rewrite lookup_alter_ne, lookup_insert_ne.
Qed.

Lemma likeAnswer_run c k s a :
  k ≠ ""%string -> answers s !! k = Some a ->
  let a' := answer_set_likes (toggle (payload_id (req_payload c)) (Answer.likes a)) a in
  likeAnswer c (Some k) s = (Json (JAnswer (Some a')), set_answers (insert k a') s).
Proof.
  intros Hk Ha a'. run_handler. rewrite (missing_false k Hk). simpl.
  rewrite Ha. simpl. rewrite lookup_alter_eq, Ha. simpl.
  unfold set_answers. simpl. by rewrite (alter_present _ _ _ _ Ha).
Qed.



(** What a like toggle leaves of the store: nothing changes, or the one
    document found under the given id gets a new [likes]. *)
Lemma likeThread_effect c i s :
  (likeThread c i s).2 = s \/
  exists k l, i = Some k /\
    (likeThread c i s).2 = set_threads (alter (thread_set_likes l) k) s.
Proof.
  run_handler. destruct (missing i); simpl; [by left|].
  destruct i as [k|]; simpl; [|by left].
  destruct (threads s !! k) as [t|] eqn:Ht; simpl; [|by left].
  right. by exists k, (toggle (payload_id (req_payload c)) (Thread.likes t)).
Qed.

Lemma likeAnswer_effect c i s :
  (likeAnswer c i s).2 = s \/
  exists k l, i = Some k /\
    (likeAnswer c i s).2 = set_answers (alter (answer_set_likes l) k) s.
Proof.
  run_handler. destruct (missing i); simpl; [by left|].
  destruct i as [k|]; simpl; [|by left].
  destruct (answers s !! k) as [a|] eqn:Ha; simpl; [|by left].
  right. by exists k, (toggle (payload_id (req_payload c)) (Answer.likes a)).
Qed.

Lemma thread_frame_refl t : thread_frame t t.
Proof. by repeat split. Qed.

Lemma answer_frame_refl a : answer_frame a a.
Proof. by repeat split. Qed.

(** C7: a like toggle changes nothing but the [likes] of the toggled
    document.  Boards and the other collection are untouched, no document
    appears or disappears, every document keeps all its other fields
    (counters and timestamps among them), and every document but the
    toggled one is left as it was. *)
Theorem like_toggle_frame c i s :
  (let s' := (likeThread c i s).2 in
   boards s' = boards s /\ answers s' = answers s /\
   forall k,
     option_Forall2 thread_frame (threads s !! k) (threads s' !! k) /\
     (Some k ≠ i -> threads s' !! k = threads s !! k)) /\
  (let s' := (likeAnswer c i s).2 in
   boards s' = boards s /\ threads s' = threads s /\
   forall k,
     option_Forall2 answer_frame (answers s !! k) (answers s' !! k) /\
     (Some k ≠ i -> answers s' !! k = answers s !! k)).
Proof.
  split; intros s'; subst s'.
  - destruct (likeThread_effect c i s) as [->|(k0 & l & -> & ->)].
    + repeat split; try done.
      destruct (threads s !! k); constructor. apply thread_frame_refl.
    + simpl. repeat split; try done.
      * destruct (decide (k0 = k)) as [->|Hne].
        -- rewrite lookup_alter_eq. destruct (threads s !! k); constructor.
           by repeat split.
        -- rewrite lookup_alter_ne by done.
           destruct (threads s !! k); constructor. apply thread_frame_refl.
      * intros Hne. apply lookup_alter_ne. congruence.
  - destruct (likeAnswer_effect c i s) as [->|(k0 & l & -> & ->)].
    + repeat split; try done.
      destruct (answers s !! k); constructor. apply answer_frame_refl.
    + simpl. repeat split; try done.
      * destruct (decide (k0 = k)) as [->|Hne].
        -- rewrite lookup_alter_eq. destruct (answers s !! k); constructor.
           by repeat split.
        -- rewrite lookup_alter_ne by done.
           destruct (answers s !! k); constructor. apply answer_frame_refl.
      * intros Hne. apply lookup_alter_ne. congruence.
Qed.

(** C10: likeThread does not look at the moderation flags.  On a closed
    thread it answers with the thread and flips the caller's like, the
    flags stay as they were, and the [likes] it leaves are the ones it
    leaves on the same thread with any other setting of [pined] and
    [closed], the open thread among them. *)
Theorem likeThread_ignores_closed c k s t :
  k ≠ ""%string -> threads s !! k = Some t -> Thread.closed t = true ->
  let u := payload_id (req_payload c) in
  exists t',
    likeThread c (Some k) s = (Json (JThread (Some t')), set_threads (insert k t') s) /\
    Thread.likes t' = toggle u (Thread.likes t) /\
    (u ∈ Thread.likes t' <-> u ∉ Thread.likes t) /\
    Thread.closed t' = true /\ Thread.pined t' = Thread.pined t /\
    forall pined closed,
      let s0 := set_threads (insert k (thread_set_flags pined closed t)) s in
      exists t0,
        likeThread c (Some k) s0 = (Json (JThread (Some t0)), set_threads (insert k t0) s0) /\
        Thread.likes t0 = Thread.likes t'.
Proof.
  intros Hk Ht Hclosed u. eexists. split; [by apply likeThread_run|].
  simpl. split; [done|]. split; [apply toggle_self|].
  split; [done|]. split; [done|].
  intros pined closed. eexists. split.
  - apply likeThread_run; [done|]. simpl. apply lookup_insert_eq.
  - done.
Qed.

Lemma likeThread_ignores_closed_witness :
  let c := Demo.request Demo.bob "2021-01-01T10:03:00.000Z" "" in
  exists t',
    (likeThread c (Some Demo.t1) Demo.closed_forum).1 = Json (JThread (Some t')) /\
    Thread.likes t' = [payload_id Demo.bob] /\ Thread.closed t' = true.
Proof.
  intros c.
  destruct (likeThread_ignores_closed c Demo.t1 Demo.closed_forum
              (thread_set_flags false true Demo.the_thread))
    as [t' [Hrun [Hlikes [_ [Hclosed _]]]]];
    [discriminate | vm_compute; reflexivity | reflexivity |].
  exists t'. rewrite Hrun. simpl. repeat split; assumption.
Defined.

(** ** Truncation *)

Lemma substring_0 (s : jsstring) n : substring s 0 n = take n s.
Proof.
  unfold substring. rewrite Nat.min_0_l, Nat.max_0_l, Nat.min_0_l, Nat.sub_0_r, drop_0.
  destruct (Nat.min_spec n (length s)) as [[_ ->]|[Hle ->]]; [done|].
  by rewrite !take_ge.
Qed.

Lemma createThread_run c k title body s :
  upload_err c = false -> k ≠ ""%string ->
  blank title = false -> blank body = false ->
  threads s !! new_id c = None ->
  let thread :=
    Thread.mk k false false (take 100 title) (take 1000 body) (now c)
      (payload_id (req_payload c)) None [] 0 (now c) (attachments c) in
  createThread c (Some k) title body s =
    (Json (JThread (Some thread)),
     set_boards (alter (board_thread_created (now c)) k)
       (set_threads (insert (new_id c) thread) s)).
Proof.
  intros Hup Hk Htitle Hbody Hfresh thread. run_handler.
  rewrite Hup, (missing_false k Hk), Htitle, Hbody. simpl.
  rewrite Hfresh. simpl. subst thread. by rewrite !substring_0.
Qed.

(** C4: createThread stores the first 100 code units of the title and the
    first 1000 of the body.  The request succeeds whatever the lengths are;
    a title or body within its cap is stored as given, a longer one is cut
    to exactly the cap. *)
Theorem createThread_truncates c k title body s :
  upload_err c = false -> k ≠ ""%string ->
  blank title = false -> blank body = false ->
  threads s !! new_id c = None ->
  exists t s',
    createThread c (Some k) title body s = (Json (JThread (Some t)), s') /\
    threads s' !! new_id c = Some t /\
    Thread.title t = take 100 title /\ Thread.body t = take 1000 body /\
    (length title <= 100 -> Thread.title t = title)%nat /\
    (length body <= 1000 -> Thread.body t = body)%nat /\
    (100 <= length title -> length (Thread.title t) = 100)%nat /\
    (1000 <= length body -> length (Thread.body t) = 1000)%nat.
Proof.
  intros Hup Hk Htitle Hbody Hfresh. eexists. eexists.
  split; [by apply createThread_run|]. simpl.
  split; [apply lookup_insert_eq|].
  split; [done|]. split; [done|].
  split; [apply take_ge|]. split; [apply take_ge|].
  split; apply length_take_le.
Qed.

Lemma createThread_truncates_witness :
  let c := Demo.request Demo.alice "2021-01-01T10:05:00.000Z" "5f00000000000000000000c2" in
  let title := repeat 97%N 50 in
  let body := repeat 98%N 5000 in
  exists t,
    (createThread c (Some Demo.b1) title body Demo.forum).1 = Json (JThread (Some t)) /\
    Thread.title t = title /\ length (Thread.body t) = 1000%nat.
Proof.
  intros c title body.
  destruct (createThread_truncates c Demo.b1 title body Demo.forum)
    as (t & s' & Hrun & _ & _ & _ & Htitle & _ & _ & Hbody);
    [reflexivity | discriminate | vm_compute; reflexivity | vm_compute; reflexivity
    | vm_compute; reflexivity |].
  exists t. rewrite Hrun. simpl. split; [done|]. split.
  - apply Htitle. vm_compute. lia.
  - apply Hbody. vm_compute. lia.
Defined.

(** ** Answers and the counters above them *)

Lemma createAnswer_run c k answeredTo body s t :
  upload_err c = false -> k ≠ ""%string -> blank body = false ->
  threads s !! k = Some t -> answers s !! new_id c = None ->
  let answer :=
    Answer.mk (Thread.boardId t) k answeredTo (take 1000 body) (now c)
      (payload_id (req_payload c)) None [] (attachments c) in
  createAnswer c (Some k) answeredTo body s =
    (Json (JAnswer (Some answer)),
     set_threads (alter (thread_answer_created (now c)) k)
       (set_boards (alter (board_answer_created (now c)) (Thread.boardId t))
          (set_answers (insert (new_id c) answer) s))).
Proof.
  intros Hup Hk Hbody Ht Hfresh answer. run_handler.
  rewrite Hup, (missing_false k Hk), Hbody. simpl.
  rewrite Ht. simpl. rewrite Hfresh. simpl.
  subst answer. by rewrite substring_0.
Qed.

(** C3: a createAnswer that goes through under an existing thread adds one
    to the thread's [answersCount] and to the [answersCount] of the board
    the thread's [boardId] names, and sets [newestAnswer] of both to the
    creation time of the new answer. *)
Theorem createAnswer_counts c k answeredTo body s t b :
  upload_err c = false -> k ≠ ""%string -> blank body = false ->
  threads s !! k = Some t -> boards s !! Thread.boardId t = Some b ->
  answers s !! new_id c = None ->
  exists a t' b' s',
    createAnswer c (Some k) answeredTo body s = (Json (JAnswer (Some a)), s') /\
    answers s' !! new_id c = Some a /\
    Answer.threadId a = k /\ Answer.boardId a = Thread.boardId t /\
    threads s' !! k = Some t' /\
    boards s' !! Thread.boardId t = Some b' /\
    Thread.answersCount t' = Thread.answersCount t + 1 /\
    Board.answersCount b' = Board.answersCount b + 1 /\
    Thread.newestAnswer t' = Answer.createdAt a /\
    Board.newestAnswer b' = Some (Answer.createdAt a) /\
    Answer.createdAt a = now c.
Proof.
  intros Hup Hk Hbody Ht Hb Hfresh.
  eexists. exists (thread_answer_created (now c) t), (board_answer_created (now c) b).
  eexists. split; [by eapply createAnswer_run|]. simpl.
  split; [apply lookup_insert_eq|]. split; [done|]. split; [done|].
  split; [by rewrite lookup_alter_eq, Ht|].
  split; [by rewrite lookup_alter_eq, Hb|].
  done.
Qed.

Lemma createAnswer_counts_witness :
  let c := Demo.request Demo.alice "2021-01-01T10:07:00.000Z" "5f00000000000000000000d2" in
  exists t' b',
    threads (createAnswer c (Some Demo.t1) None (str "Thanks") Demo.forum).2 !! Demo.t1
      = Some t' /\
    boards (createAnswer c (Some Demo.t1) None (str "Thanks") Demo.forum).2 !! Demo.b1
      = Some b' /\
    Thread.answersCount t' = 2 /\ Board.answersCount b' = 2 /\
    Thread.newestAnswer t' = "2021-01-01T10:07:00.000Z"%string /\
    Board.newestAnswer b' = Some "2021-01-01T10:07:00.000Z"%string.
Proof.
  intros c.
  destruct (createAnswer_counts c Demo.t1 None (str "Thanks") Demo.forum
              Demo.the_thread Demo.the_board)
    as (a & t' & b' & s' & Hrun & _ & _ & _ & Ht' & Hb' & Hn & Hm & Hta & Hba & Hnow);
    [reflexivity | discriminate | vm_compute; reflexivity | vm_compute; reflexivity
    | vm_compute; reflexivity | vm_compute; reflexivity |].
  exists t', b'. rewrite Hrun. cbn [snd].
  split; [exact Ht'|]. split; [exact Hb'|].
  rewrite Hn, Hm, Hta, Hba, Hnow. done.
Defined.

(** ** Editing a thread *)

Lemma editThread_run c i title body closed s t :
  blank title = false -> blank body = false ->
  findById (threads s) i = Some t ->
  payload_id (req_payload c) = Thread.author t ->
  let t' :=
    thread_edit (take 100 title) (take 1000 body)
      (match closed with None => Thread.closed t | Some b => b end)
      (match closed with None => Some (now c) | Some _ => None end) t in
  exists k, i = Some k /\
    editThread c i title body closed s =
      (Json (JThread (Some t')), set_threads (insert k t') s).
Proof.
  intros Htitle Hbody Ht Hauthor t'.
  destruct i as [k|]; [|discriminate]. simpl in Ht. exists k. split; [done|].
  run_handler. rewrite Htitle, Hbody. simpl. rewrite Ht. simpl.
  rewrite (bool_decide_eq_true_2 _ Hauthor). simpl.
  rewrite lookup_alter_eq, Ht. simpl. rewrite !substring_0.
  unfold set_threads. simpl. by rewrite (alter_present _ _ _ _ Ht).
Qed.

Lemma adminEditThread_run c i title body pined closed s t :
  is_admin c = true -> blank title = false -> blank body = false ->
  findById (threads s) i = Some t ->
  let t' :=
    thread_admin_edit (take 100 title) (take 1000 body)
      (match pined with None => Thread.pined t | Some b => b end)
      (match closed with None => Thread.closed t | Some b => b end)
      (match pined, closed with None, None => Some (now c) | _, _ => None end) t in
  exists k, i = Some k /\
    adminEditThread c i title body pined closed s =
      (Json (JThread (Some t')), set_threads (insert k t') s).
Proof.
  intros Hadmin Htitle Hbody Ht t'.
  destruct i as [k|]; [|discriminate]. simpl in Ht. exists k. split; [done|].
  run_handler. rewrite Hadmin, Htitle, Hbody. simpl. rewrite Ht.
  destruct pined, closed; simpl; rewrite lookup_alter_eq, Ht; simpl;
    rewrite !substring_0; unfold set_threads; simpl;
    by rewrite (alter_present _ _ _ _ Ht).
Qed.

(** C6: an accepted editThread or adminEditThread always stores the
    truncated title and body, and stamps [edited] exactly when no moderation
    flag comes with the request ([closed] for editThread, [pined] and
    [closed] for adminEditThread); a request that carries a flag stores the
    flag and leaves [edited] null. *)
Theorem edit_sets_edited_iff_no_flag c k title body pined closed s t :
  blank title = false -> blank body = false -> threads s !! k = Some t ->
  (payload_id (req_payload c) = Thread.author t ->
   exists t',
     editThread c (Some k) title body closed s =
       (Json (JThread (Some t')), set_threads (insert k t') s) /\
     Thread.title t' = take 100 title /\ Thread.body t' = take 1000 body /\
     (Thread.edited t' = Some (now c) <-> closed = None) /\
     (Thread.edited t' = None <-> closed ≠ None) /\
     Thread.closed t' = default (Thread.closed t) closed /\
     Thread.pined t' = Thread.pined t) /\
  (is_admin c = true ->
   exists t',
     adminEditThread c (Some k) title body pined closed s =
       (Json (JThread (Some t')), set_threads (insert k t') s) /\
     Thread.title t' = take 100 title /\ Thread.body t' = take 1000 body /\
     (Thread.edited t' = Some (now c) <-> pined = None /\ closed = None) /\
     (Thread.edited t' = None <-> pined ≠ None \/ closed ≠ None) /\
     Thread.closed t' = default (Thread.closed t) closed /\
     Thread.pined t' = default (Thread.pined t) pined).
Proof.
  intros Htitle Hbody Ht. split.
  - intros Hauthor.
    destruct (editThread_run c (Some k) title body closed s t)
      as (k' & [= <-] & Hrun); try done.
    eexists. split; [exact Hrun|]. simpl.
    destruct closed; simpl; repeat split; try done; intros; discriminate.
  - intros Hadmin.
    destruct (adminEditThread_run c (Some k) title body pined closed s t)
      as (k' & [= <-] & Hrun); try done.
    eexists. split; [exact Hrun|]. simpl.
    destruct pined, closed; simpl; repeat split; try done; intros;
      try discriminate; intuition congruence.
Qed.

Lemma edit_sets_edited_iff_no_flag_witness :
  let c := Demo.request Demo.alice "2021-01-01T10:09:00.000Z" "" in
  exists t' t'',
    (editThread c (Some Demo.t1) (str "Hi all") (str "Hello") None Demo.forum).1
      = Json (JThread (Some t')) /\
    Thread.edited t' = Some "2021-01-01T10:09:00.000Z"%string /\
    (editThread c (Some Demo.t1) (str "Hi all") (str "Hello") (Some true) Demo.forum).1
      = Json (JThread (Some t'')) /\
    Thread.edited t'' = None /\ Thread.closed t'' = true.
Proof.
  intros c.
  destruct (edit_sets_edited_iff_no_flag c Demo.t1 (str "Hi all") (str "Hello")
              None None Demo.forum Demo.the_thread) as [Hedit _];
    [vm_compute; reflexivity | vm_compute; reflexivity | vm_compute; reflexivity |].
  destruct (Hedit eq_refl) as (t' & Hrun & _ & _ & [_ Hed] & _).
  destruct (edit_sets_edited_iff_no_flag c Demo.t1 (str "Hi all") (str "Hello")
              None (Some true) Demo.forum Demo.the_thread) as [Hedit' _];
    [vm_compute; reflexivity | vm_compute; reflexivity | vm_compute; reflexivity |].
  destruct (Hedit' eq_refl) as (t'' & Hrun' & _ & _ & _ & [_ Hed'] & Hcl & _).
  exists t', t''. rewrite Hrun, Hrun'. simpl.
  split; [done|]. split; [by apply Hed|]. split; [done|].
  split; [by apply Hed'|]. exact Hcl.
Defined.

(** ** Rejected requests *)

Lemma editThread_not_author c k title body closed s t :
  blank title = false -> blank body = false -> threads s !! k = Some t ->
  payload_id (req_payload c) ≠ Thread.author t ->
  editThread c (Some k) title body closed s = (Unauthorized "Action not allowed", s).
Proof.
  intros Htitle Hbody Ht Hauthor. run_handler.
  rewrite Htitle, Hbody. simpl. rewrite Ht. simpl.
  by rewrite (bool_decide_eq_false_2 _ Hauthor).
Qed.

(** Whatever makes a request end without [res.json] (a failed check, a
    document that is not there, a duplicate key) does so before the first
    write. *)
Lemma failed_writes_nothing c m s :
  (forall j, (handle c m s).1 <> Json j) -> (handle c m s).2 = s.
Proof.
  destruct m; run_handler; simpl; split_guards; intros H; try done;
    exfalso; eapply H; reflexivity.
Qed.

(** The validation checks of editThread come before the ownership check: a
    caller who is neither the author nor a moderator and sends a blank title
    is told BadRequest, not Unauthorized. *)
Lemma editThread_blank_title_is_bad_request :
  let c := Demo.request Demo.bob "2021-01-01T10:11:00.000Z" "" in
  threads Demo.forum !! Demo.t1 = Some Demo.the_thread /\
  payload_id (req_payload c) ≠ Thread.author Demo.the_thread /\
  is_admin c = false /\
  editThread c (Some Demo.t1) (str "   ") (str "Hello") None Demo.forum
    = (BadRequest "Board title must not be empty", Demo.forum) /\
  ~ (exists msg, (editThread c (Some Demo.t1) (str "   ") (str "Hello") None Demo.forum).1
                 = Unauthorized msg).
Proof.
  intros c.
  assert (Hrun : editThread c (Some Demo.t1) (str "   ") (str "Hello") None Demo.forum
                 = (BadRequest "Board title must not be empty", Demo.forum))
    by (vm_compute; reflexivity).
  split; [vm_compute; reflexivity|]. split; [discriminate|].
  split; [reflexivity|]. split; [exact Hrun|].
  rewrite Hrun. intros [msg Hmsg]. discriminate.
Qed.

(** C5, amended: an editThread call with a non-blank title and body by
    anyone but the thread's author (moderator or not) fails with
    Unauthorized and changes nothing; and whenever any mutating handler
    answers with a validation or authorization error, the store is exactly
    what it was before the request. *)
Theorem rejected_requests_write_nothing :
  (forall c k title body closed s t,
     blank title = false -> blank body = false -> threads s !! k = Some t ->
     payload_id (req_payload c) ≠ Thread.author t ->
     editThread c (Some k) title body closed s
       = (Unauthorized "Action not allowed", s)) /\
  (forall c m s, rejected (handle c m s).1 = true -> (handle c m s).2 = s).
Proof.
  split.
  - apply editThread_not_author.
  - intros c m s Hrej. apply failed_writes_nothing.
    intros j Hj. rewrite Hj in Hrej. discriminate.
Qed.

Lemma rejected_requests_write_nothing_witness :
  let c := Demo.request Demo.bob "2021-01-01T10:11:00.000Z" "" in
  editThread c (Some Demo.t1) (str "Hi all") (str "Hello") None Demo.forum
    = (Unauthorized "Action not allowed", Demo.forum) /\
  (handle c (DeleteThread (Some Demo.t1)) Demo.forum).2 = Demo.forum.
Proof.
  intros c. destruct rejected_requests_write_nothing as [Hedit Hrej]. split.
  - apply (Hedit c Demo.t1 (str "Hi all") (str "Hello") None Demo.forum Demo.the_thread);
      [vm_compute; reflexivity | vm_compute; reflexivity | vm_compute; reflexivity
      | discriminate].
  - apply Hrej. vm_compute. reflexivity.
Defined.

(** ** Board validation *)

(** The position check passes exactly on the positive integers. *)
Lemma position_guard_false position :
  negb (truthy position) || negb (isInteger position) || lt0 position = false <->
  exists z, 0 < z /\ is_integer_value position z.
Proof.
  unfold is_integer_value. split.
  - intros H. apply orb_false_elim in H as [H Hlt]. apply orb_false_elim in H as [Htr Hint].
    apply negb_false_iff in Htr, Hint.
    destruct position as [| |b|n d|x|]; simpl in *; try discriminate.
    apply negb_true_iff, Z.eqb_neq in Htr.
    apply Z.eqb_eq in Hint. apply Z.ltb_ge in Hlt.
    exists (n / Z.pos d). split.
    + apply Z.div_str_pos. split; [lia|].
      pose proof (Z.mod_divide n (Z.pos d) ltac:(lia)) as [Hdiv _].
      destruct (Hdiv Hint) as [q Hq].
      assert (0 < q) by nia. nia.
    + exists n, d. split; [done|].
      pose proof (Z.div_mod n (Z.pos d) ltac:(lia)). lia.
  - intros (z & Hz & n & d & -> & Hn). simpl. subst n.
    rewrite Z.mod_mul by lia.
    replace (z * Z.pos d =? 0) with false by (symmetry; apply Z.eqb_neq; nia).
    replace (z * Z.pos d <? 0) with false by (symmetry; apply Z.ltb_ge; nia).
    done.
Qed.

(** A position that is not a non-negative integer does not pass it. *)
Lemma position_guard_true position :
  ~ (exists z, 0 <= z /\ is_integer_value position z) ->
  negb (truthy position) || negb (isInteger position) || lt0 position = true.
Proof.
  intros Hnot. apply not_false_iff_true. intros Hpass.
  apply position_guard_false in Hpass as (z & Hz & Hv).
  apply Hnot. exists z. split; [lia|done].
Qed.

Lemma toInt_value position z : is_integer_value position z -> toInt position = z.
Proof. intros (n & d & -> & ->). simpl. apply Z.div_mul. lia. Qed.

(** createBoard checks the board's [name] as well, and its position check
    turns down 0: a moderator's request with a good title and position 1 but
    a blank name is a BadRequest, and so is one with a good name and title
    and position 0. *)
Lemma createBoard_rejects_blank_name_and_zero :
  let c := Demo.request Demo.admin "2021-01-01T10:13:00.000Z" "5f00000000000000000000b2" in
  is_admin c = true /\ blank (str "General") = false /\
  createBoard c (str " ") (str "General") JUndefined (JNum 1 1) Demo.forum
    = (BadRequest "Board name must not be empty", Demo.forum) /\
  createBoard c (str "general") (str "General") JUndefined (JNum 0 1) Demo.forum
    = (BadRequest "Position must be number", Demo.forum).
Proof. intros c. vm_compute. auto. Qed.

(** C8, amended: for a moderator, createBoard (and editBoard, which runs the
    same checks) answers BadRequest whenever the name or the title is blank
    or the position is not a non-negative integer, and never answers
    BadRequest when name and title are non-blank and the position is a
    positive integer; createBoard then stores the board under a fresh id. *)
Theorem createBoard_validation c boardId name title body position s :
  is_admin c = true ->
  (blank name = true \/ blank title = true \/
   ~ (exists z, 0 <= z /\ is_integer_value position z) ->
   (exists msg, createBoard c name title body position s = (BadRequest msg, s)) /\
   (exists msg, editBoard c boardId name title body position s = (BadRequest msg, s))) /\
  (forall z, blank name = false -> blank title = false ->
     0 < z -> is_integer_value position z ->
     (forall msg, (createBoard c name title body position s).1 ≠ BadRequest msg) /\
     (forall msg, (editBoard c boardId name title body position s).1 ≠ BadRequest msg) /\
     (boards s !! new_id c = None ->
      createBoard c name title body position s =
        (Json (JBoard (Some (Board.mk name title body z (now c) 0 0 None None))),
         set_boards (insert (new_id c)
                       (Board.mk name title body z (now c) 0 0 None None)) s))).
Proof.
  intros Hadmin. split.
  - intros Hbad. run_handler. rewrite Hadmin. simpl.
    destruct (blank name) eqn:Hname; simpl; [by split; eexists|].
    destruct (blank title) eqn:Htitle; simpl; [by split; eexists|].
    destruct Hbad as [?|[?|Hpos]]; try discriminate.
    rewrite (position_guard_true _ Hpos). simpl. by split; eexists.
  - intros z Hname Htitle Hz Hv.
    assert (Hguard : negb (truthy position) || negb (isInteger position) || lt0 position
                     = false) by (apply position_guard_false; eauto).
    run_handler. rewrite Hadmin, Hname, Htitle, Hguard. simpl.
    rewrite (toInt_value _ _ Hv).
    split; [|split].
    + intros msg. by destruct (boards s !! new_id c).
    + done.
    + by intros ->.
Qed.

Lemma createBoard_validation_witness :
  let c := Demo.request Demo.admin "2021-01-01T10:13:00.000Z" "5f00000000000000000000b2" in
  (exists b, (createBoard c (str "news") (str "News") JUndefined (JNum 2 1) Demo.forum).1
             = Json (JBoard (Some b)) /\ Board.position b = 2) /\
  (exists msg, createBoard c (str "news") (str "News") JUndefined (JNum 3 2) Demo.forum
               = (BadRequest msg, Demo.forum)).
Proof.
  intros c.
  destruct (createBoard_validation c None (str "news") (str "News") JUndefined (JNum 2 1)
              Demo.forum eq_refl) as [_ Hok].
  destruct (Hok 2) as (_ & _ & Hrun);
    [vm_compute; reflexivity | vm_compute; reflexivity | lia
    | exists 2, 1%positive; split; reflexivity |].
  destruct (createBoard_validation c None (str "news") (str "News") JUndefined (JNum 3 2)
              Demo.forum eq_refl) as [Hbad _].
  split.
  - eexists. rewrite Hrun by (vm_compute; reflexivity). simpl. split; reflexivity.
  - apply Hbad. right. right. intros (z & Hz & n & d & [= <- <-] & Hn). lia.
Defined.

(** ** The counters after deletions *)

(** C1, at the failing input.  The scenario (board, thread, answer) is
    followed by deleteAnswer of the answer, or by deleteThread of the
    thread.  Either way no answer is left under the board, yet the board
    still counts one: createAnswer adds to [Board.answersCount], and neither
    delete path takes anything off it.  The thread's own counter does
    follow deleteAnswer. *)
Theorem delete_leaves_board_answersCount :
  (reachable Demo.after_deleteAnswer /\
   Board.answersCount <$> boards Demo.after_deleteAnswer !! Demo.b1 = Some 1 /\
   count_board_answers Demo.after_deleteAnswer Demo.b1 = 0 /\
   Thread.answersCount <$> threads Demo.after_deleteAnswer !! Demo.t1 = Some 0 /\
   count_thread_answers Demo.after_deleteAnswer Demo.t1 = 0 /\
   ~ board_counters_ok Demo.after_deleteAnswer) /\
  (reachable Demo.after_deleteThread /\
   Board.answersCount <$> boards Demo.after_deleteThread !! Demo.b1 = Some 1 /\
   count_board_answers Demo.after_deleteThread Demo.b1 = 0 /\
   Board.threadsCount <$> boards Demo.after_deleteThread !! Demo.b1 = Some 0 /\
   count_board_threads Demo.after_deleteThread Demo.b1 = 0 /\
   ~ board_counters_ok Demo.after_deleteThread).
Proof.
  assert (H1 : Board.answersCount <$> boards Demo.after_deleteAnswer !! Demo.b1 = Some 1)
    by (vm_compute; reflexivity).
  assert (C1 : count_board_answers Demo.after_deleteAnswer Demo.b1 = 0)
    by (vm_compute; reflexivity).
  assert (H2 : Board.answersCount <$> boards Demo.after_deleteThread !! Demo.b1 = Some 1)
    by (vm_compute; reflexivity).
  assert (C2 : count_board_answers Demo.after_deleteThread Demo.b1 = 0)
    by (vm_compute; reflexivity).
  split.
  - split; [eexists; reflexivity|]. split; [exact H1|]. split; [exact C1|].
    split; [vm_compute; reflexivity|]. split; [vm_compute; reflexivity|].
    intros Hok. apply fmap_Some in H1 as (b & Hb & Hn).
    specialize (Hok _ _ Hb). rewrite C1 in Hok. rewrite Hok in Hn. discriminate Hn.
  - split; [eexists; reflexivity|]. split; [exact H2|]. split; [exact C2|].
    split; [vm_compute; reflexivity|]. split; [vm_compute; reflexivity|].
    intros Hok. apply fmap_Some in H2 as (b & Hb & Hn).
    specialize (Hok _ _ Hb). rewrite C2 in Hok. rewrite Hok in Hn. discriminate Hn.
Qed.

(** ** Overlapping like toggles *)

Lemma written_fresh mode uid likes :
  written mode
    (match List.find (fun like => bool_decide (like = uid)) likes with
     | Some _ => Assigned
     | None => Pushed uid
     end) (toggle uid likes) likes = toggle uid likes.
Proof.
  unfold written, toggle.
  by destruct mode, (List.find _ likes).
Qed.

(** A request that runs through its awaits undisturbed does what the
    handler does. *)
Lemma settle_like mode e c i s :
  settle mode e (Start c i) s = (Finished (like e c i s).1, (like e c i s).2).
Proof.
  pose proof (written_fresh mode (payload_id (req_payload c))) as Hw.
  unfold settle, step, toggle in *.
  destruct e; unfold like, stored_likes, write_likes, refetched, missing_id;
    run_handler; unfold toggle;
    (destruct (missing i); simpl; [done|]);
    (destruct i as [k|]; simpl; [|done]).
  - destruct (threads s !! k) as [t|] eqn:Ht; simpl; [|done].
    specialize (Hw (Thread.likes t)).
    destruct (List.find _ (Thread.likes t)); simpl; rewrite Ht; simpl;
      rewrite !lookup_alter_eq, Ht; simpl; rewrite Hw; unfold set_threads, set_answers, updateOne;
      rewrite !(alter_present _ _ _ _ Ht); cbn beta; by rewrite ?Hw.
  - destruct (answers s !! k) as [a|] eqn:Ha; simpl; [|done].
    specialize (Hw (Answer.likes a)).
    destruct (List.find _ (Answer.likes a)); simpl; rewrite Ha; simpl;
      rewrite !lookup_alter_eq, Ha; simpl; rewrite Hw; unfold set_threads, set_answers, updateOne;
      rewrite !(alter_present _ _ _ _ Ha); cbn beta; by rewrite ?Hw.
Qed.

Lemma exec_one_after_the_other mode e p q s :
  exec mode e one_after_the_other (p, q, s) =
    let '(p', s') := settle mode e p s in
    let '(q', s'') := settle mode e q s' in
    (p', q', s'').
Proof.
  unfold one_after_the_other, settle. simpl.
  destruct (step mode e p s) as [p1 s1].
  destruct (step mode e p1 s1) as [p2 s2].
  destruct (step mode e p2 s2) as [p3 s3].
  destruct (step mode e q s3) as [q1 s4].
  destruct (step mode e q1 s4) as [q2 s5].
  by destruct (step mode e q2 s5) as [q3 s6].
Qed.

Lemma like_stored_likes e c i s likes :
  missing i = false -> stored_likes e s i = Some likes ->
  stored_likes e (like e c i s).2 i
    = Some (toggle (payload_id (req_payload c)) likes).
Proof.
  intros Hi Hl. destruct i as [k|]; [|discriminate].
  assert (Hk : k ≠ ""%string) by (by apply bool_decide_eq_false in Hi).
  destruct e; simpl in *.
  - apply fmap_Some in Hl as (t & Ht & ->).
    rewrite (likeThread_run c k s t Hk Ht). simpl. by rewrite lookup_insert_eq.
  - apply fmap_Some in Hl as (a & Ha & ->).
    rewrite (likeAnswer_run c k s a Hk Ha). simpl. by rewrite lookup_insert_eq.
Qed.

Lemma toggle_twice uid likes v :
  v ∈ toggle uid (toggle uid likes) <-> v ∈ likes.
Proof.
  destruct (decide (v = uid)) as [->|Hne].
  - rewrite !toggle_self. destruct (decide (uid ∈ likes)); tauto.
  - by rewrite !toggle_other.
Qed.

(** Two like requests by one caller that overlap: both find the caller
    absent from [likes], both take the push branch, both are answered with
    the thread (or answer) showing the like, and the like is still there at
    the end, under either reading of [save].  Run one after the other, the
    same two requests leave [likes] empty again. *)
Lemma overlapping_likes_both_push :
  (forall mode,
     exists l1 l2 t' t'' s',
       exec mode InThread [true; false] Demo.two_thread_likes =
         (Fetched Demo.bob_likes (Some Demo.t1) l1 (Pushed (payload_id Demo.bob)),
          Fetched Demo.bob_likes (Some Demo.t1) l2 (Pushed (payload_id Demo.bob)),
          Demo.forum) /\
       exec mode InThread overlapping Demo.two_thread_likes =
         (Finished (Json (JThread (Some t'))), Finished (Json (JThread (Some t''))), s') /\
       payload_id Demo.bob ∈ Thread.likes t' /\
       payload_id Demo.bob ∈ Thread.likes t'' /\
       exists l, stored_likes InThread s' (Some Demo.t1) = Some l /\
                 payload_id Demo.bob ∈ l) /\
  (forall mode,
     exists a' a'' s',
       exec mode InAnswer overlapping Demo.two_answer_likes =
         (Finished (Json (JAnswer (Some a'))), Finished (Json (JAnswer (Some a''))), s') /\
       payload_id Demo.bob ∈ Answer.likes a' /\
       payload_id Demo.bob ∈ Answer.likes a'' /\
       exists l, stored_likes InAnswer s' (Some Demo.a1) = Some l /\
                 payload_id Demo.bob ∈ l) /\
  (forall mode,
     stored_likes InThread
       (exec mode InThread one_after_the_other Demo.two_thread_likes).2
       (Some Demo.t1) = Some [] /\
     stored_likes InAnswer
       (exec mode InAnswer one_after_the_other Demo.two_answer_likes).2
       (Some Demo.a1) = Some []).
Proof.
  split; [|split].
  - intros mode. destruct mode; do 5 eexists.
    all: split; [vm_compute; reflexivity|].
    all: split; [vm_compute; reflexivity|].
    all: split; [apply list_elem_of_here|].
    all: split; [apply list_elem_of_here|].
    all: eexists; (split; [vm_compute; reflexivity|]); apply list_elem_of_here.
  - intros mode. destruct mode; do 3 eexists.
    all: split; [vm_compute; reflexivity|].
    all: split; [apply list_elem_of_here|].
    all: split; [apply list_elem_of_here|].
    all: eexists; (split; [vm_compute; reflexivity|]); apply list_elem_of_here.
  - intros mode. destruct mode; split; vm_compute; reflexivity.
Qed.

(** C9, amended: two like requests on one entity that do not overlap (the
    first settles before the second starts) are the two handler calls in
    that order, under either reading of [save]: [likes] ends as the second
    toggle applied to the result of the first.  By the same caller they
    leave every membership as it was; by different callers both flips show
    and nobody else's membership moves. *)
Theorem likes_one_after_the_other mode e c1 c2 i s likes :
  missing i = false -> stored_likes e s i = Some likes ->
  let u1 := payload_id (req_payload c1) in
  let u2 := payload_id (req_payload c2) in
  let r1 := like e c1 i s in
  let r2 := like e c2 i r1.2 in
  exec mode e one_after_the_other (Start c1 i, Start c2 i, s)
    = (Finished r1.1, Finished r2.1, r2.2) /\
  stored_likes e r2.2 i = Some (toggle u2 (toggle u1 likes)) /\
  (u1 = u2 -> forall v, v ∈ toggle u2 (toggle u1 likes) <-> v ∈ likes) /\
  (u1 ≠ u2 ->
   (u1 ∈ toggle u2 (toggle u1 likes) <-> u1 ∉ likes) /\
   (u2 ∈ toggle u2 (toggle u1 likes) <-> u2 ∉ likes) /\
   forall v, v ≠ u1 -> v ≠ u2 -> v ∈ toggle u2 (toggle u1 likes) <-> v ∈ likes).
Proof.
  intros Hi Hl u1 u2 r1 r2. split; [|split; [|split]].
  - rewrite exec_one_after_the_other, settle_like. cbv beta iota zeta.
    by rewrite settle_like.
  - subst r2. apply like_stored_likes; [done|].
    subst r1. by apply like_stored_likes.
  - intros <- v. apply toggle_twice.
  - intros Hne. split; [|split].
    + rewrite toggle_other by done. apply toggle_self.
    + rewrite toggle_self. rewrite toggle_other by done. tauto.
    + intros v Hv1 Hv2. by rewrite !toggle_other.
Qed.

Lemma likes_one_after_the_other_witness :
  stored_likes InThread
    (exec WholeArray InThread one_after_the_other
       (Start Demo.bob_likes (Some Demo.t1),
        Start (Demo.request Demo.alice "2021-01-01T10:04:00.000Z" "") (Some Demo.t1),
        Demo.forum)).2
    (Some Demo.t1)
  = Some [payload_id Demo.bob; payload_id Demo.alice].
Proof.
  destruct (likes_one_after_the_other WholeArray InThread Demo.bob_likes
              (Demo.request Demo.alice "2021-01-01T10:04:00.000Z" "")
              (Some Demo.t1) Demo.forum [])
    as (Hexec & Hstored & _); [reflexivity | vm_compute; reflexivity |].
  rewrite Hexec. cbn [snd]. rewrite Hstored. reflexivity.
Defined.

(** ** [Thread.answersCount] in every reachable state *)

Section Counting.
Context {D : Type} (parent : D -> oid).

Lemma count_insert_fresh k j d (m : gmap string D) :
  m !! j = None ->
  count_under parent k (<[j := d]> m)
    = if decide (parent d = k) then S (count_under parent k m)
      else count_under parent k m.
Proof.
  intros Hj. unfold count_under. rewrite map_filter_insert. simpl.
  destruct (decide (parent d = k)).
  - rewrite map_size_insert_None; [done|].
    apply map_lookup_filter_None. by left.
  - by rewrite delete_id.
Qed.

Lemma count_delete k j d (m : gmap string D) :
  m !! j = Some d ->
  count_under parent k m
    = if decide (parent d = k) then S (count_under parent k (delete j m))
      else count_under parent k (delete j m).
Proof.
  intros Hj. rewrite <-(insert_delete_id m j d Hj) at 1.
  apply count_insert_fresh. apply lookup_delete_eq.
Qed.

Lemma count_alter k j f (m : gmap string D) :
  (forall d, parent (f d) = parent d) ->
  count_under parent k (alter f j m) = count_under parent k m.
Proof.
  intros Hf. destruct (m !! j) as [d|] eqn:Hj.
  - rewrite (count_delete k j d m Hj).
    assert (Hj' : alter f j m !! j = Some (f d)) by (by rewrite lookup_alter_eq, Hj).
    rewrite (count_delete k j (f d) _ Hj'). rewrite Hf.
    replace (delete j (alter f j m)) with (delete j m); [done|].
    apply map_eq. intros i. destruct (decide (j = i)) as [->|Hne].
    + by rewrite !lookup_delete_eq.
    + by rewrite !lookup_delete_ne, lookup_alter_ne.
  - f_equal. apply map_eq. intros i. destruct (decide (j = i)) as [->|Hne].
    + by rewrite lookup_alter_eq, Hj.
    + by rewrite lookup_alter_ne.
Qed.

Lemma count_none k (m : gmap string D) :
  (forall j d, m !! j = Some d -> parent d ≠ k) -> count_under parent k m = 0%nat.
Proof.
  intros Hnone. unfold count_under. apply map_size_empty_iff, map_eq. intros j.
  rewrite lookup_empty. apply map_lookup_filter_None. right. intros d Hd.
  by apply Hnone in Hd.
Qed.
End Counting.

Lemma count_deleteMany k j (m : gmap string Answer.t) :
  j ≠ k ->
  count_under Answer.threadId j (deleteMany_threadId (Some k) m)
    = count_under Answer.threadId j m.
Proof.
  intros Hne. unfold count_under, deleteMany_threadId. f_equal.
  apply map_filter_filter_l. intros i a _ Ha. simpl in *. congruence.
Qed.

Lemma is_Some_alter {D} (f : D -> D) k j (m : gmap string D) :
  is_Some (alter f k m !! j) <-> is_Some (m !! j).
Proof.
  destruct (decide (k = j)) as [->|Hne].
  - rewrite lookup_alter_eq. apply fmap_is_Some.
  - by rewrite lookup_alter_ne.
Qed.

Lemma handle_effect c m s :
  effect s (threads (handle c m s).2) (answers (handle c m s).2).
Proof.
  destruct m; run_handler; simpl; split_guards; try apply effect_none;
    known_id; unfold updateOne, delete_doc; simpl.
  all: try match goal with
           | |- effect _ (match ?i with Some _ => _ | None => _ end) _ =>
               destruct i; [|apply effect_none]
           end.
  all: try match goal with
           | Ht : threads ?s0 !! _ = Some ?t |- effect _ _ (<[?k := ?a]> _) =>
               by apply (effect_create_answer s0 k a t)
           end.
  all: first [ by apply effect_edit_thread
             | by apply effect_edit_answer
             | by apply effect_create_thread
             | apply effect_delete_thread
             | by apply effect_delete_answer ].
Qed.

Lemma effect_keeps_thread_inv s bs ts ans :
  effect s ts ans -> thread_inv s -> thread_inv (Db bs ts ans).
Proof.
  unfold thread_inv, thread_counters_ok, answers_have_threads, count_thread_answers.
  intros Heff [Hcnt Horph]. destruct Heff; simpl.
  - done.
  - split.
    + intros j t'. destruct (decide (k = j)) as [->|Hne].
      * rewrite lookup_alter_eq. intros (t & Ht & ->)%fmap_Some.
        rewrite H. by apply Hcnt.
      * rewrite lookup_alter_ne by done. apply Hcnt.
    + intros j a Ha. apply is_Some_alter. by eapply Horph.
  - split.
    + intros j t Ht. rewrite count_alter by done. by apply Hcnt.
    + intros j a'. destruct (decide (k = j)) as [->|Hne].
      * rewrite lookup_alter_eq. intros (a & Ha & ->)%fmap_Some.
        rewrite H. by eapply Horph.
      * rewrite lookup_alter_ne by done. apply Horph.
  - split.
    + intros j t'. destruct (decide (k = j)) as [->|Hne].
      * rewrite lookup_insert_eq. intros [= <-]. rewrite H0.
        rewrite count_none; [done|].
        intros i a Ha Heq. apply Horph in Ha as [t' Ht'].
        rewrite Heq in Ht'. congruence.
      * rewrite lookup_insert_ne by done. apply Hcnt.
    + intros j a Ha. destruct (decide (k = Answer.threadId a)) as [->|Hne].
      * rewrite lookup_insert_eq. by eexists.
      * rewrite lookup_insert_ne by done. by eapply Horph.
  - split.
    + intros j t. destruct (decide (k = j)) as [->|Hne].
      * by rewrite lookup_delete_eq.
      * rewrite lookup_delete_ne by done. intros Ht.
        rewrite count_deleteMany by done. by apply Hcnt.
    + intros j a (Ha & Hk)%map_lookup_filter_Some. simpl in Hk.
      rewrite lookup_delete_ne by congruence. by eapply Horph.
  - split.
    + intros j t'. rewrite (count_insert_fresh _ _ _ _ _ H).
      destruct (decide (Answer.threadId a = j)) as [<-|Hne].
      * rewrite lookup_alter_eq, H0. intros [= <-]. simpl.
        rewrite (Hcnt _ _ H0). lia.
      * rewrite lookup_alter_ne by done. apply Hcnt.
    + intros j a'. destruct (decide (k = j)) as [->|Hne].
      * rewrite lookup_insert_eq. intros [= <-]. apply is_Some_alter. by eexists.
      * rewrite lookup_insert_ne by done. intros Ha'. apply is_Some_alter.
        by eapply Horph.
  - split.
    + intros j t'. destruct (decide (Answer.threadId a = j)) as [<-|Hne].
      * rewrite lookup_alter_eq. intros (t & Ht & ->)%fmap_Some. simpl.
        rewrite (Hcnt _ _ Ht).
        rewrite (count_delete Answer.threadId (Answer.threadId a) _ _ _ H).
        rewrite decide_True by done. lia.
      * rewrite lookup_alter_ne by done. intros Ht.
        rewrite (Hcnt _ _ Ht).
        rewrite (count_delete Answer.threadId j _ _ _ H).
        by rewrite decide_False.
    + intros j a'. destruct (decide (k = j)) as [->|Hne].
      * by rewrite lookup_delete_eq.
      * rewrite lookup_delete_ne by done. intros Ha'. apply is_Some_alter.
        by eapply Horph.
Qed.

Lemma handle_keeps_thread_inv c m s : thread_inv s -> thread_inv (handle c m s).2.
Proof.
  intros Hinv. pose proof (handle_effect c m s) as Heff.
  destruct (handle c m s).2 as [bs ts ans]. by apply (effect_keeps_thread_inv s).
Qed.

Lemma run_keeps_thread_inv reqs s : thread_inv s -> thread_inv (run reqs s).
Proof.
  revert s. induction reqs as [|[c m] reqs IH]; intros s Hinv; simpl; [done|].
  by apply IH, handle_keeps_thread_inv.
Qed.

(** X28: the thread half of the counter invariant does hold: in every state the
    handlers can reach from the empty store, each thread's [answersCount]
    is the number of answers whose [threadId] is the thread's id. *)
Theorem reachable_thread_counters_ok s : reachable s -> thread_counters_ok s.
Proof.
  intros [reqs <-]. apply run_keeps_thread_inv. split.
  - intros k t Ht. simpl in Ht. by rewrite lookup_empty in Ht.
  - intros k a Ha. simpl in Ha. by rewrite lookup_empty in Ha.
Qed.

(** * Further properties of the controller *)

(** ** One request, one document *)

Lemma handle_thread_change c m s k :
  thread_change c (threads s !! k) (threads (handle c m s).2 !! k).
Proof.
  destruct m; run_handler; simpl; split_guards; try apply thread_same;
    known_id; guard_facts; unfold updateOne, delete_doc; simpl;
    alter_leaf thread_same.
  - destruct (decide (new_id c = k)) as [<-|Hne].
    + rewrite lookup_insert_eq.
      match goal with H : _ !! new_id c = None |- _ => rewrite H end.
      apply thread_created.
    + rewrite lookup_insert_ne by done. apply thread_same.
  - destruct (decide (s0 = k)) as [<-|Hne].
    + rewrite lookup_delete_eq.
      match goal with H : _ !! s0 = Some _ |- _ => rewrite H end.
      by apply thread_deleted.
    + rewrite lookup_delete_ne by done. apply thread_same.
Qed.

Lemma handle_answer_change c m s k :
  answer_change c (answers s !! k) (answers (handle c m s).2 !! k).
Proof.
  destruct m; run_handler; simpl; split_guards; try apply answer_same;
    known_id; guard_facts; unfold updateOne, delete_doc; simpl;
    alter_leaf answer_same.
  - cbv beta delta [deleteMany_threadId]. rewrite map_lookup_filter.
    destruct (answers s !! k) as [a|]; simpl; [|apply answer_same].
    case_guard; simpl; [apply answer_same | by apply answer_deleted].
  - destruct (decide (new_id c = k)) as [<-|Hne].
    + rewrite lookup_insert_eq.
      match goal with H : _ !! new_id c = None |- _ => rewrite H end.
      apply answer_created.
    + rewrite lookup_insert_ne by done. apply answer_same.
  - destruct (decide (s0 = k)) as [<-|Hne].
    + rewrite lookup_delete_eq.
      match goal with H : _ !! s0 = Some _ |- _ => rewrite H end.
      by apply answer_deleted.
    + rewrite lookup_delete_ne by done. apply answer_same.
Qed.

Lemma handle_board_change c m s k :
  board_change c (boards s !! k) (boards (handle c m s).2 !! k).
Proof.
  destruct m; run_handler; simpl; split_guards; try apply board_same;
    known_id; guard_facts; unfold updateOne, delete_doc; simpl;
    alter_leaf board_same.
  - destruct (decide (new_id c = k)) as [<-|Hne].
    + rewrite lookup_insert_eq.
      match goal with H : _ !! new_id c = None |- _ => rewrite H end.
      by apply board_created.
    + rewrite lookup_insert_ne by done. apply board_same.
  - destruct (decide (s0 = k)) as [<-|Hne].
    + rewrite lookup_delete_eq.
      match goal with H : _ !! s0 = Some _ |- _ => rewrite H end.
      by apply board_deleted.
    + rewrite lookup_delete_ne by done. apply board_same.
Qed.

(** ** What a caller cannot do *)

(** X1: a request by a caller who is not an admin leaves every board in
    place with its name, title, body, position and creation time, and
    creates no board; all it can move on a board are the counters and the
    newest-activity timestamps. *)
Theorem non_admin_cannot_touch_boards c m s k :
  is_admin c = false ->
  (forall b, boards s !! k = Some b ->
     exists b', boards (handle c m s).2 !! k = Some b' /\
       Board.name b' = Board.name b /\ Board.title b' = Board.title b /\
       Board.body b' = Board.body b /\ Board.position b' = Board.position b /\
       Board.createdAt b' = Board.createdAt b) /\
  (boards s !! k = None -> boards (handle c m s).2 !! k = None).
Proof.
  intros Hadmin.
  destruct (handle_board_change c m s k); try congruence;
    (split; [intros b0 Hb; simplify_eq; by eexists | done]).
Qed.

Lemma non_admin_cannot_touch_boards_witness :
  exists b',
    boards (handle (Demo.request Demo.alice "2021-01-01T10:20:00.000Z" "")
              (DeleteBoard (Some Demo.b1)) Demo.forum).2 !! Demo.b1 = Some b' /\
    Board.title b' = str "General".
Proof.
  destruct (non_admin_cannot_touch_boards
              (Demo.request Demo.alice "2021-01-01T10:20:00.000Z" "")
              (DeleteBoard (Some Demo.b1)) Demo.forum Demo.b1 eq_refl) as [Hkeep _].
  destruct (Hkeep Demo.the_board) as (b' & Hb' & _ & Htitle & _);
    [vm_compute; reflexivity|].
  exists b'. split; [exact Hb'|]. rewrite Htitle. reflexivity.
Defined.

(** X2: a thread is out of reach of a caller who is not an admin: it stays,
    and so does its pin.  If the caller is not its author either, the
    title, body, closed flag and edited marker stay as well; all such a
    caller can move are the likes and the answer counter and timestamp. *)
Theorem thread_protected_from_others c m s k t :
  threads s !! k = Some t -> is_admin c = false ->
  exists t',
    threads (handle c m s).2 !! k = Some t' /\
    Thread.pined t' = Thread.pined t /\
    (payload_id (req_payload c) ≠ Thread.author t ->
     Thread.title t' = Thread.title t /\ Thread.body t' = Thread.body t /\
     Thread.closed t' = Thread.closed t /\ Thread.edited t' = Thread.edited t).
Proof.
  intros Ht Hadmin. pose proof (handle_thread_change c m s k) as Hch.
  rewrite Ht in Hch. inversion Hch; subst; try congruence; by eexists.
Qed.

Lemma thread_protected_from_others_witness :
  exists t',
    threads (handle (Demo.request Demo.bob "2021-01-01T10:21:00.000Z" "")
               (EditThread (Some Demo.t1) (str "Mine now") (str "Hello") (Some true))
               Demo.forum).2 !! Demo.t1 = Some t' /\
    Thread.title t' = str "Hi" /\ Thread.closed t' = false.
Proof.
  destruct (thread_protected_from_others
              (Demo.request Demo.bob "2021-01-01T10:21:00.000Z" "")
              (EditThread (Some Demo.t1) (str "Mine now") (str "Hello") (Some true))
              Demo.forum Demo.t1 Demo.the_thread)
    as (t' & Ht' & _ & Hrest); [vm_compute; reflexivity | reflexivity |].
  destruct Hrest as (Htitle & _ & Hclosed & _); [discriminate|].
  exists t'. split; [exact Ht'|]. by rewrite Htitle, Hclosed.
Defined.

(** X3: nobody but its author can change an answer.  Under a request of any
    other caller the answer keeps every field but its likes, or, if the
    caller is an admin, it may be gone. *)
Theorem answer_protected_from_others c m s k a :
  answers s !! k = Some a -> payload_id (req_payload c) ≠ Answer.author a ->
  (exists a', answers (handle c m s).2 !! k = Some a' /\ answer_frame a a') \/
  (answers (handle c m s).2 !! k = None /\ is_admin c = true).
Proof.
  intros Ha Hauthor. pose proof (handle_answer_change c m s k) as Hch.
  rewrite Ha in Hch. inversion Hch; subst; try congruence.
  - left. eexists. split; [done|]. apply answer_frame_refl.
  - by right.
  - left. eexists. split; [done|]. by repeat split.
Qed.

Lemma answer_protected_from_others_witness :
  exists a',
    answers (handle (Demo.request Demo.admin "2021-01-01T10:22:00.000Z" "")
               (EditAnswer (Some Demo.a1) (str "Rewritten")) Demo.forum).2 !! Demo.a1
      = Some a' /\
    Answer.body a' = str "Reply".
Proof.
  destruct (answer_protected_from_others
              (Demo.request Demo.admin "2021-01-01T10:22:00.000Z" "")
              (EditAnswer (Some Demo.a1) (str "Rewritten")) Demo.forum
              Demo.a1 Demo.the_answer)
    as [(a' & Ha' & Hframe)|[Hgone _]]; [vm_compute; reflexivity | discriminate | |].
  - exists a'. split; [exact Ha'|]. destruct Hframe as (_ & _ & _ & Hbody & _).
    by rewrite Hbody.
  - exfalso. revert Hgone. vm_compute. discriminate.
Defined.

(** X4: no request rewrites where a post belongs or where it came from.  A
    thread that is still there keeps its board, creation time, author and
    attachments; an answer keeps its board, thread, addressee, creation
    time, author and attachments; a board keeps its creation time. *)
Theorem origin_is_immutable c m s k :
  (forall t t', threads s !! k = Some t -> threads (handle c m s).2 !! k = Some t' ->
     Thread.boardId t' = Thread.boardId t /\ Thread.createdAt t' = Thread.createdAt t /\
     Thread.author t' = Thread.author t /\ Thread.attach t' = Thread.attach t) /\
  (forall a a', answers s !! k = Some a -> answers (handle c m s).2 !! k = Some a' ->
     Answer.boardId a' = Answer.boardId a /\ Answer.threadId a' = Answer.threadId a /\
     Answer.answeredTo a' = Answer.answeredTo a /\
     Answer.createdAt a' = Answer.createdAt a /\
     Answer.author a' = Answer.author a /\ Answer.attach a' = Answer.attach a) /\
  (forall b b', boards s !! k = Some b -> boards (handle c m s).2 !! k = Some b' ->
     Board.createdAt b' = Board.createdAt b).
Proof.
  split; [|split].
  - intros t t' Ht Ht'. pose proof (handle_thread_change c m s k) as Hch.
    rewrite Ht, Ht' in Hch. by inversion Hch; subst.
  - intros a a' Ha Ha'. pose proof (handle_answer_change c m s k) as Hch.
    rewrite Ha, Ha' in Hch. by inversion Hch; subst.
  - intros b b' Hb Hb'. pose proof (handle_board_change c m s k) as Hch.
    rewrite Hb, Hb' in Hch. by inversion Hch; subst.
Qed.

(** X5: a request moves nobody's like but the caller's own: for every other
    user id, membership in the likes of each thread and answer that is still
    there is what it was. *)
Theorem likes_of_others_untouched c m s k v :
  v ≠ payload_id (req_payload c) ->
  (forall t t', threads s !! k = Some t -> threads (handle c m s).2 !! k = Some t' ->
     v ∈ Thread.likes t' <-> v ∈ Thread.likes t) /\
  (forall a a', answers s !! k = Some a -> answers (handle c m s).2 !! k = Some a' ->
     v ∈ Answer.likes a' <-> v ∈ Answer.likes a).
Proof.
  intros Hv. split.
  - intros t t' Ht Ht'. pose proof (handle_thread_change c m s k) as Hch.
    rewrite Ht, Ht' in Hch. inversion Hch; subst; try done.
    by apply toggle_other.
  - intros a a' Ha Ha'. pose proof (handle_answer_change c m s k) as Hch.
    rewrite Ha, Ha' in Hch. inversion Hch; subst; try done.
    by apply toggle_other.
Qed.

Lemma likes_of_others_untouched_witness :
  exists t',
    threads (handle (Demo.request Demo.bob "2021-01-01T10:23:00.000Z" "")
               (LikeThread (Some Demo.t1)) Demo.forum).2 !! Demo.t1 = Some t' /\
    payload_id Demo.alice ∉ Thread.likes t'.
Proof.
  destruct (likes_of_others_untouched
              (Demo.request Demo.bob "2021-01-01T10:23:00.000Z" "")
              (LikeThread (Some Demo.t1)) Demo.forum Demo.t1 (payload_id Demo.alice))
    as [Hthreads _]; [discriminate|].
  eexists. split; [vm_compute; reflexivity|].
  rewrite (Hthreads Demo.the_thread); [apply not_elem_of_nil | | ];
    vm_compute; reflexivity.
Defined.

(** ** What holds of every stored document *)


(** A property of documents that new documents have and every change keeps
    holds in all reachable states. *)
Lemma reachable_threads (P : Thread.t -> Prop) :
  (forall c t', thread_change c None (Some t') -> P t') ->
  (forall c t t', thread_change c (Some t) (Some t') -> P t -> P t') ->
  forall s, reachable s -> forall k t, threads s !! k = Some t -> P t.
Proof.
  intros Hnew Hkeep s [reqs <-].
  assert (Hall : forall s0, (forall k t, threads s0 !! k = Some t -> P t) ->
                   forall k t, threads (run reqs s0) !! k = Some t -> P t).
  { induction reqs as [|[c m] reqs IH]; intros s0 Hs0; simpl; [done|].
    apply IH. intros k t Ht. pose proof (handle_thread_change c m s0 k) as Hch.
    rewrite Ht in Hch. destruct (threads s0 !! k) as [t0|] eqn:Ht0.
    - eapply Hkeep; [exact Hch | by eapply Hs0].
    - by eapply Hnew. }
  apply Hall. intros k t Ht. simpl in Ht. by rewrite lookup_empty in Ht.
Qed.

Lemma reachable_answers (P : Answer.t -> Prop) :
  (forall c a', answer_change c None (Some a') -> P a') ->
  (forall c a a', answer_change c (Some a) (Some a') -> P a -> P a') ->
  forall s, reachable s -> forall k a, answers s !! k = Some a -> P a.
Proof.
  intros Hnew Hkeep s [reqs <-].
  assert (Hall : forall s0, (forall k a, answers s0 !! k = Some a -> P a) ->
                   forall k a, answers (run reqs s0) !! k = Some a -> P a).
  { induction reqs as [|[c m] reqs IH]; intros s0 Hs0; simpl; [done|].
    apply IH. intros k a Ha. pose proof (handle_answer_change c m s0 k) as Hch.
    rewrite Ha in Hch. destruct (answers s0 !! k) as [a0|] eqn:Ha0.
    - eapply Hkeep; [exact Hch | by eapply Hs0].
    - by eapply Hnew. }
  apply Hall. intros k a Ha. simpl in Ha. by rewrite lookup_empty in Ha.
Qed.


Lemma length_substring_0 (s : jsstring) n : (length (substring s 0 n) <= n)%nat.
Proof. rewrite substring_0, length_take. lia. Qed.

(** X7: in every reachable state a thread's title has at most 100 code units
    and its body at most 1000, and an answer's body has at most 1000:
    creation and every edit cut to these lengths. *)
Theorem reachable_lengths_capped s :
  reachable s ->
  (forall k t, threads s !! k = Some t ->
     (length (Thread.title t) <= 100 /\ length (Thread.body t) <= 1000)%nat) /\
  (forall k a, answers s !! k = Some a -> (length (Answer.body a) <= 1000)%nat).
Proof.
  intros Hs. split.
  - apply (reachable_threads
             (fun t => (length (Thread.title t) <= 100 /\
                        length (Thread.body t) <= 1000)%nat)); [| |done].
    + intros c t' Hch. inversion Hch; subst. simpl.
      split; apply length_substring_0.
    + intros c t t' Hch Hlen. inversion Hch; subst; simpl; try done;
        split; apply length_substring_0.
  - apply (reachable_answers (fun a => (length (Answer.body a) <= 1000)%nat));
      [| |done].
    + intros c a' Hch. inversion Hch; subst. simpl. apply length_substring_0.
    + intros c a a' Hch Hlen. inversion Hch; subst; simpl; try done.
      apply length_substring_0.
Qed.

(** ** The delete and edit routes at work *)

Lemma is_admin_guard c : is_admin c = true -> negb (is_admin c) = false.
Proof. by intros ->. Qed.

Lemma deleteThread_run c k s t :
  is_admin c = true -> k ≠ ""%string -> threads s !! k = Some t ->
  deleteThread c (Some k) s =
    (Json (JMessage "Thread successfully deleted"),
     Db (alter board_thread_deleted (Thread.boardId t) (boards s))
        (delete k (threads s))
        (deleteMany_threadId (Some k) (answers s))).
Proof.
  intros Hadmin Hk Ht. run_handler.
  rewrite (is_admin_guard c Hadmin), (missing_false k Hk). simpl. by rewrite Ht.
Qed.

Lemma deleteAnswer_run c k s a :
  is_admin c = true -> k ≠ ""%string -> answers s !! k = Some a ->
  deleteAnswer c (Some k) s =
    (Json (JMessage "Answer successfully deleted"),
     Db (boards s)
        (alter thread_answer_deleted (Answer.threadId a) (threads s))
        (delete k (answers s))).
Proof.
  intros Hadmin Hk Ha. run_handler.
  rewrite (is_admin_guard c Hadmin), (missing_false k Hk). simpl. by rewrite Ha.
Qed.

(** X8: deleteThread by an admin removes the thread and, with it, exactly
    the answers written under it; every other answer and every other thread
    is left as it was.  The thread's board loses one from [threadsCount] and
    keeps everything else, [answersCount] included; no other board moves. *)
Theorem deleteThread_cascade c k s t :
  is_admin c = true -> k ≠ ""%string -> threads s !! k = Some t ->
  exists s',
    deleteThread c (Some k) s = (Json (JMessage "Thread successfully deleted"), s') /\
    threads s' !! k = None /\
    (forall j, j ≠ k -> threads s' !! j = threads s !! j) /\
    (forall j a, answers s' !! j = Some a <->
                 answers s !! j = Some a /\ Answer.threadId a ≠ k) /\
    (forall b, boards s !! Thread.boardId t = Some b ->
       boards s' !! Thread.boardId t = Some (board_thread_deleted b) /\
       Board.threadsCount (board_thread_deleted b) = Board.threadsCount b - 1 /\
       Board.answersCount (board_thread_deleted b) = Board.answersCount b) /\
    (forall j, j ≠ Thread.boardId t -> boards s' !! j = boards s !! j).
Proof.
  intros Hadmin Hk Ht. eexists. split; [by apply deleteThread_run|]. simpl.
  split; [apply lookup_delete_eq|].
  split; [intros j Hj; by apply lookup_delete_ne|].
  split.
  { intros j a. unfold deleteMany_threadId. rewrite map_lookup_filter_Some. simpl.
    split; intros [Ha Hne]; (split; [done|congruence]). }
  split.
  { intros b Hb. rewrite lookup_alter_eq, Hb. simpl. split; [done|]. split; [lia|done]. }
  intros j Hj. by apply lookup_alter_ne.
Qed.

Lemma deleteThread_cascade_witness :
  exists s',
    deleteThread Demo.moderator (Some Demo.t1) Demo.forum
      = (Json (JMessage "Thread successfully deleted"), s') /\
    answers s' !! Demo.a1 = None /\
    Board.answersCount <$> boards s' !! Demo.b1 = Some 1.
Proof.
  destruct (deleteThread_cascade Demo.moderator Demo.t1 Demo.forum Demo.the_thread)
    as (s' & Hrun & _ & _ & Hans & Hboard & _);
    [reflexivity | discriminate | vm_compute; reflexivity |].
  exists s'. split; [exact Hrun|]. split.
  - destruct (answers s' !! Demo.a1) as [a|] eqn:Ha; [|done].
    apply Hans in Ha as [Ha Hne]. exfalso. apply Hne.
    assert (Hthe : answers Demo.forum !! Demo.a1 = Some Demo.the_answer)
      by (vm_compute; reflexivity).
    rewrite Hthe in Ha. by injection Ha as <-.
  - destruct (Hboard Demo.the_board) as (Hb & _ & _); [vm_compute; reflexivity|].
    simpl in Hb. by rewrite Hb.
Defined.

(** X9: deleteAnswer by an admin removes that one answer and takes one off
    the [answersCount] of its thread, whose other fields stay (its
    [newestAnswer] too).  No board is touched at all, and no other answer or
    thread. *)
Theorem deleteAnswer_effect c k s a :
  is_admin c = true -> k ≠ ""%string -> answers s !! k = Some a ->
  exists s',
    deleteAnswer c (Some k) s = (Json (JMessage "Answer successfully deleted"), s') /\
    boards s' = boards s /\
    answers s' = delete k (answers s) /\
    (forall t, threads s !! Answer.threadId a = Some t ->
       threads s' !! Answer.threadId a = Some (thread_answer_deleted t) /\
       Thread.answersCount (thread_answer_deleted t) = Thread.answersCount t - 1 /\
       Thread.newestAnswer (thread_answer_deleted t) = Thread.newestAnswer t) /\
    (forall j, j ≠ Answer.threadId a -> threads s' !! j = threads s !! j).
Proof.
  intros Hadmin Hk Ha. eexists. split; [by apply deleteAnswer_run|]. simpl.
  split; [done|]. split; [done|]. split.
  - intros t Ht. rewrite lookup_alter_eq, Ht. simpl. split; [done|]. split; [lia|done].
  - intros j Hj. by apply lookup_alter_ne.
Qed.

Lemma deleteAnswer_effect_witness :
  exists s',
    deleteAnswer Demo.moderator (Some Demo.a1) Demo.forum
      = (Json (JMessage "Answer successfully deleted"), s') /\
    boards s' = boards Demo.forum /\
    Thread.answersCount <$> threads s' !! Demo.t1 = Some 0.
Proof.
  destruct (deleteAnswer_effect Demo.moderator Demo.a1 Demo.forum Demo.the_answer)
    as (s' & Hrun & Hboards & _ & Hthread & _);
    [reflexivity | discriminate | vm_compute; reflexivity |].
  exists s'. split; [exact Hrun|]. split; [exact Hboards|].
  destruct (Hthread Demo.the_thread) as (Ht & _ & _); [vm_compute; reflexivity|].
  simpl in Ht. by rewrite Ht.
Defined.

(** X10: deleteBoard does not cascade.  An admin's deleteBoard of an
    existing board removes that board and nothing else: all threads and
    answers stay, those of the deleted board included, and they now name a
    board that is not there. *)
Theorem deleteBoard_orphans c k s b :
  is_admin c = true -> k ≠ ""%string -> boards s !! k = Some b ->
  exists s',
    deleteBoard c (Some k) s = (Json (JMessage "Board successfully deleted"), s') /\
    boards s' = delete k (boards s) /\
    threads s' = threads s /\ answers s' = answers s /\
    (forall j t, threads s !! j = Some t -> Thread.boardId t = k ->
       threads s' !! j = Some t /\ boards s' !! Thread.boardId t = None) /\
    (forall j a, answers s !! j = Some a -> Answer.boardId a = k ->
       answers s' !! j = Some a /\ boards s' !! Answer.boardId a = None).
Proof.
  intros Hadmin Hk Hb. eexists. split.
  { run_handler. rewrite (is_admin_guard c Hadmin), (missing_false k Hk). simpl.
    rewrite Hb. simpl. reflexivity. }
  simpl. split; [done|]. split; [done|]. split; [done|]. split.
  - intros j t Ht ->. split; [done|]. apply lookup_delete_eq.
  - intros j a Ha ->. split; [done|]. apply lookup_delete_eq.
Qed.

Lemma deleteBoard_orphans_witness :
  exists s',
    deleteBoard Demo.moderator (Some Demo.b1) Demo.forum
      = (Json (JMessage "Board successfully deleted"), s') /\
    threads s' !! Demo.t1 = Some Demo.the_thread /\
    boards s' !! Thread.boardId Demo.the_thread = None.
Proof.
  destruct (deleteBoard_orphans Demo.moderator Demo.b1 Demo.forum Demo.the_board)
    as (s' & Hrun & _ & _ & _ & Horph & _);
    [reflexivity | discriminate | vm_compute; reflexivity |].
  exists s'. split; [exact Hrun|].
  apply (Horph Demo.t1 Demo.the_thread); [vm_compute; reflexivity | reflexivity].
Defined.



Lemma editAnswer_run c k body s a :
  blank body = false -> answers s !! k = Some a ->
  payload_id (req_payload c) = Answer.author a ->
  let a' := answer_edit (take 1000 body) (Some (now c)) a in
  editAnswer c (Some k) body s = (Json (JAnswer (Some a')), set_answers (insert k a') s).
Proof.
  intros Hbody Ha Hauthor a'. run_handler. rewrite Hbody. simpl. rewrite Ha. simpl.
  rewrite (bool_decide_eq_true_2 _ Hauthor). simpl.
  rewrite lookup_alter_eq, Ha. simpl. rewrite substring_0.
  unfold set_answers. simpl. by rewrite (alter_present _ _ _ _ Ha).
Qed.

(** X12: editAnswer is for the author alone.  The author's edit stores the
    first 1000 code units of the new body and stamps [edited] with the
    time of the edit, and leaves the likes and every other field.  Any
    other caller, an admin too, is told Unauthorized and nothing is
    written. *)
Theorem editAnswer_by_author_only c k body s a :
  blank body = false -> answers s !! k = Some a ->
  (payload_id (req_payload c) = Answer.author a ->
   exists a',
     editAnswer c (Some k) body s
       = (Json (JAnswer (Some a')), set_answers (insert k a') s) /\
     Answer.body a' = take 1000 body /\ Answer.edited a' = Some (now c) /\
     Answer.likes a' = Answer.likes a /\ Answer.threadId a' = Answer.threadId a /\
     Answer.boardId a' = Answer.boardId a /\ Answer.author a' = Answer.author a /\
     Answer.createdAt a' = Answer.createdAt a /\ Answer.attach a' = Answer.attach a /\
     Answer.answeredTo a' = Answer.answeredTo a) /\
  (payload_id (req_payload c) ≠ Answer.author a ->
   editAnswer c (Some k) body s = (Unauthorized "Action not allowed", s)).
Proof.
  intros Hbody Ha. split.
  - intros Hauthor. eexists. split; [by apply editAnswer_run|]. by repeat split.
  - intros Hauthor. run_handler. rewrite Hbody. simpl. rewrite Ha. simpl.
    by rewrite (bool_decide_eq_false_2 _ Hauthor).
Qed.

Lemma editAnswer_by_author_only_witness :
  (exists a',
     (editAnswer (Demo.request Demo.bob "2021-01-01T10:24:00.000Z" "")
        (Some Demo.a1) (str "Reply, revised") Demo.forum).1 = Json (JAnswer (Some a')) /\
     Answer.edited a' = Some "2021-01-01T10:24:00.000Z"%string) /\
  editAnswer Demo.moderator (Some Demo.a1) (str "Reply, revised") Demo.forum
    = (Unauthorized "Action not allowed", Demo.forum).
Proof.
  destruct (editAnswer_by_author_only (Demo.request Demo.bob "2021-01-01T10:24:00.000Z" "")
              Demo.a1 (str "Reply, revised") Demo.forum Demo.the_answer) as [Hown _];
    [vm_compute; reflexivity | vm_compute; reflexivity |].
  destruct (editAnswer_by_author_only Demo.moderator
              Demo.a1 (str "Reply, revised") Demo.forum Demo.the_answer) as [_ Hother];
    [vm_compute; reflexivity | vm_compute; reflexivity |].
  split.
  - destruct (Hown eq_refl) as (a' & Hrun & _ & Hedited & _).
    exists a'. rewrite Hrun. by split.
  - apply Hother. discriminate.
Defined.

(** ** Creating under a board or a thread that is or is not there *)

(** X13: createThread under an existing board stores a thread that is
    neither pinned nor closed, not edited, without likes or answers, written
    by the caller, created and last answered at the time of the request; the
    board gains one in [threadsCount] and gets that time as [newestThread],
    with [answersCount] and [newestAnswer] as before, and no other board
    moves. *)
Theorem createThread_effect c k title body s b :
  upload_err c = false -> k ≠ ""%string ->
  blank title = false -> blank body = false ->
  threads s !! new_id c = None -> boards s !! k = Some b ->
  exists t b' s',
    createThread c (Some k) title body s = (Json (JThread (Some t)), s') /\
    threads s' !! new_id c = Some t /\ answers s' = answers s /\
    Thread.boardId t = k /\ Thread.author t = payload_id (req_payload c) /\
    Thread.pined t = false /\ Thread.closed t = false /\ Thread.edited t = None /\
    Thread.likes t = [] /\ Thread.answersCount t = 0 /\
    Thread.createdAt t = now c /\ Thread.newestAnswer t = now c /\
    boards s' !! k = Some b' /\
    Board.threadsCount b' = Board.threadsCount b + 1 /\
    Board.newestThread b' = Some (now c) /\
    Board.answersCount b' = Board.answersCount b /\
    Board.newestAnswer b' = Board.newestAnswer b /\
    (forall j, j ≠ k -> boards s' !! j = boards s !! j) /\
    (forall j, j ≠ new_id c -> threads s' !! j = threads s !! j).
Proof.
  intros Hup Hk Htitle Hbody Hfresh Hb.
  eexists. exists (board_thread_created (now c) b). eexists.
  split; [by apply createThread_run|]. simpl.
  split; [apply lookup_insert_eq|]. do 10 (split; [done|]).
  split; [by rewrite lookup_alter_eq, Hb|]. do 4 (split; [done|]).
  split; intros j Hj; [by apply lookup_alter_ne | by apply lookup_insert_ne].
Qed.

Lemma createThread_effect_witness :
  exists b',
    boards (createThread (Demo.request Demo.bob "2021-01-01T10:25:00.000Z"
                            "5f00000000000000000000c2")
              (Some Demo.b1) (str "Second") (str "Another one") Demo.forum).2 !! Demo.b1
      = Some b' /\
    Board.threadsCount b' = 2 /\
    Board.newestThread b' = Some "2021-01-01T10:25:00.000Z"%string.
Proof.
  destruct (createThread_effect
              (Demo.request Demo.bob "2021-01-01T10:25:00.000Z" "5f00000000000000000000c2")
              Demo.b1 (str "Second") (str "Another one") Demo.forum Demo.the_board)
    as (t & b' & s' & Hrun & Hrest);
    [reflexivity | discriminate | vm_compute; reflexivity | vm_compute; reflexivity
    | vm_compute; reflexivity | vm_compute; reflexivity |].
  destruct Hrest as (_ & _ & _ & _ & _ & _ & _ & _ & _ & _ & _ & Hb' & Hn & Hnew & _).
  exists b'. rewrite Hrun. cbn [snd]. split; [exact Hb'|]. by rewrite Hn, Hnew.
Defined.



(** X15: what goes wrong inside the upload callback is never answered.
    createAnswer under a thread id that matches no thread, and createThread
    or createAnswer with an [_id] already taken, send no response at all
    (neither [res.json] nor [next] runs) and write nothing. *)
Theorem upload_callback_failures_unanswered c k title body answeredTo s :
  upload_err c = false -> k ≠ ""%string ->
  blank title = false -> blank body = false ->
  (threads s !! k = None ->
   createAnswer c (Some k) answeredTo body s = (NoResponse, s)) /\
  (is_Some (answers s !! new_id c) -> is_Some (threads s !! k) ->
   createAnswer c (Some k) answeredTo body s = (NoResponse, s)) /\
  (is_Some (threads s !! new_id c) ->
   createThread c (Some k) title body s = (NoResponse, s)).
Proof.
  intros Hup Hk Htitle Hbody. split; [|split].
  - intros Hnone. run_handler. rewrite Hup, (missing_false k Hk), Hbody. simpl.
    by rewrite Hnone.
  - intros [a Ha] [t Ht]. run_handler. rewrite Hup, (missing_false k Hk), Hbody. simpl.
    rewrite Ht. simpl. by rewrite Ha.
  - intros [t Ht]. run_handler. rewrite Hup, (missing_false k Hk), Htitle, Hbody. simpl.
    by rewrite Ht.
Qed.

Lemma upload_callback_failures_unanswered_witness :
  createAnswer (Demo.request Demo.bob "2021-01-01T10:26:00.000Z" "5f00000000000000000000d2")
    (Some Demo.b1) None (str "Reply") Demo.forum = (NoResponse, Demo.forum) /\
  createThread (Demo.request Demo.bob "2021-01-01T10:26:00.000Z" Demo.t1)
    (Some Demo.b1) (str "Again") (str "Reply") Demo.forum = (NoResponse, Demo.forum).
Proof.
  split.
  - destruct (upload_callback_failures_unanswered
                (Demo.request Demo.bob "2021-01-01T10:26:00.000Z" "5f00000000000000000000d2")
                Demo.b1 (str "Again") (str "Reply") None Demo.forum) as [Hmissing _];
      [reflexivity | discriminate | vm_compute; reflexivity | vm_compute; reflexivity |].
    apply Hmissing. vm_compute. reflexivity.
  - destruct (upload_callback_failures_unanswered
                (Demo.request Demo.bob "2021-01-01T10:26:00.000Z" Demo.t1)
                Demo.b1 (str "Again") (str "Reply") None Demo.forum) as (_ & _ & Htaken);
      [reflexivity | discriminate | vm_compute; reflexivity | vm_compute; reflexivity |].
    apply Htaken. exists Demo.the_thread. vm_compute. reflexivity.
Defined.

(** X16: a request that does not end in [res.json] has written nothing,
    whatever stopped it: a failed check, a document that is not there or a
    key already taken, answered with an error or not answered at all. *)
Theorem unanswered_or_failed_writes_nothing c m s :
  (forall j, (handle c m s).1 ≠ Json j) -> (handle c m s).2 = s.
Proof. apply failed_writes_nothing. Qed.

Lemma unanswered_or_failed_writes_nothing_witness :
  (handle Demo.moderator (DeleteAnswer (Some Demo.t1)) Demo.forum).2 = Demo.forum.
Proof.
  apply unanswered_or_failed_writes_nothing.
  assert (Hrun : (handle Demo.moderator (DeleteAnswer (Some Demo.t1)) Demo.forum).1
                 = InternalServerError) by (vm_compute; reflexivity).
  intros j Hj. rewrite Hrun in Hj. discriminate Hj.
Defined.



(** ** Requests in a row *)

Lemma filter_out_absent (uid : string) (likes : list string) :
  uid ∉ likes -> filter (fun like => like ≠ uid) likes = likes.
Proof.
  induction likes as [|x likes IH]; intros Hout; [done|].
  apply not_elem_of_cons in Hout as [Hne Hout].
  rewrite filter_cons_True by done. by rewrite IH.
Qed.

Lemma toggle_back uid likes : uid ∉ likes -> toggle uid (toggle uid likes) = likes.
Proof.
  intros Hout. rewrite (toggle_absent uid likes Hout).
  rewrite toggle_present by (apply elem_of_app; right; apply list_elem_of_here).
  rewrite filter_app, filter_out_absent by done.
  rewrite filter_cons_False by (intros H; by apply H). by rewrite app_nil_r.
Qed.

(** X18: a like followed by the same caller's unlike is a round trip.  When
    the caller was not among the likes, two like requests in a row put the
    store back exactly as it was, and the second answers with the document
    as it was; so for a thread, so for an answer. *)
Theorem like_unlike_round_trip c1 c2 k s :
  k ≠ ""%string -> payload_id (req_payload c2) = payload_id (req_payload c1) ->
  (forall t, threads s !! k = Some t -> payload_id (req_payload c1) ∉ Thread.likes t ->
     likeThread c2 (Some k) (likeThread c1 (Some k) s).2 = (Json (JThread (Some t)), s)) /\
  (forall a, answers s !! k = Some a -> payload_id (req_payload c1) ∉ Answer.likes a ->
     likeAnswer c2 (Some k) (likeAnswer c1 (Some k) s).2 = (Json (JAnswer (Some a)), s)).
Proof.
  intros Hk Hsame. split.
  - intros t Ht Hout. rewrite (likeThread_run c1 k s t Hk Ht). simpl.
    erewrite likeThread_run; [|done|apply lookup_insert_eq]. simpl.
    rewrite Hsame, toggle_back by done.
    destruct s as [bs ts ans], t. unfold set_threads, thread_set_likes. simpl in *.
    by rewrite insert_insert_eq, insert_id.
  - intros a Ha Hout. rewrite (likeAnswer_run c1 k s a Hk Ha). simpl.
    erewrite likeAnswer_run; [|done|apply lookup_insert_eq]. simpl.
    rewrite Hsame, toggle_back by done.
    destruct s as [bs ts ans], a. unfold set_answers, answer_set_likes. simpl in *.
    by rewrite insert_insert_eq, insert_id.
Qed.

Lemma like_unlike_round_trip_witness :
  likeThread (Demo.request Demo.bob "2021-01-01T10:28:00.000Z" "") (Some Demo.t1)
    (likeThread Demo.bob_likes (Some Demo.t1) Demo.forum).2
  = (Json (JThread (Some Demo.the_thread)), Demo.forum).
Proof.
  destruct (like_unlike_round_trip Demo.bob_likes
              (Demo.request Demo.bob "2021-01-01T10:28:00.000Z" "") Demo.t1 Demo.forum)
    as [Hthread _]; [discriminate | reflexivity |].
  apply Hthread; [vm_compute; reflexivity | apply not_elem_of_nil].
Defined.

(** X19: deleting an answer does not undo its creation.  After createAnswer
    and an admin's deleteAnswer of the new answer the answers are what they
    were and the thread's [answersCount] is back, but the board still counts
    the answer, and [newestAnswer] of both thread and board still holds the
    creation time of the answer that is gone. *)
Theorem createAnswer_then_deleteAnswer c1 c2 k answeredTo body s t b :
  upload_err c1 = false -> k ≠ ""%string -> blank body = false ->
  threads s !! k = Some t -> boards s !! Thread.boardId t = Some b ->
  answers s !! new_id c1 = None -> new_id c1 ≠ ""%string -> is_admin c2 = true ->
  exists t' b' s',
    deleteAnswer c2 (Some (new_id c1)) (createAnswer c1 (Some k) answeredTo body s).2
      = (Json (JMessage "Answer successfully deleted"), s') /\
    answers s' = answers s /\
    threads s' !! k = Some t' /\
    Thread.answersCount t' = Thread.answersCount t /\
    Thread.newestAnswer t' = now c1 /\
    boards s' !! Thread.boardId t = Some b' /\
    Board.answersCount b' = Board.answersCount b + 1 /\
    Board.newestAnswer b' = Some (now c1).
Proof.
  intros Hup Hk Hbody Ht Hb Hfresh Hid Hadmin.
  rewrite (createAnswer_run c1 k answeredTo body s t Hup Hk Hbody Ht Hfresh). simpl.
  exists (thread_answer_deleted (thread_answer_created (now c1) t)),
         (board_answer_created (now c1) b).
  eexists. split.
  { apply deleteAnswer_run; [done|done|]. simpl. apply lookup_insert_eq. }
  simpl. split; [by rewrite delete_insert_eq, delete_id|].
  split; [by rewrite !lookup_alter_eq, Ht|].
  split; [lia|]. split; [done|].
  split; [by rewrite lookup_alter_eq, Hb|]. done.
Qed.

Lemma createAnswer_then_deleteAnswer_witness :
  exists b' s',
    deleteAnswer Demo.moderator (Some "5f00000000000000000000d2")
      (createAnswer (Demo.request Demo.alice "2021-01-01T10:07:00.000Z"
                       "5f00000000000000000000d2")
         (Some Demo.t1) None (str "Thanks") Demo.forum).2
      = (Json (JMessage "Answer successfully deleted"), s') /\
    answers s' = answers Demo.forum /\
    boards s' !! Demo.b1 = Some b' /\ Board.answersCount b' = 2.
Proof.
  destruct (createAnswer_then_deleteAnswer
              (Demo.request Demo.alice "2021-01-01T10:07:00.000Z" "5f00000000000000000000d2")
              Demo.moderator Demo.t1 None (str "Thanks") Demo.forum
              Demo.the_thread Demo.the_board)
    as (t' & b' & s' & Hrun & Hans & _ & _ & _ & Hb' & Hcount & _);
    [reflexivity | discriminate | vm_compute; reflexivity | vm_compute; reflexivity
    | vm_compute; reflexivity | vm_compute; reflexivity | discriminate | reflexivity |].
  exists b', s'. split; [exact Hrun|]. split; [exact Hans|]. split; [exact Hb'|].
  by rewrite Hcount.
Defined.

(** X20: createThread followed by an admin's deleteThread of the new thread
    gives the threads back as they were and the board its old
    [threadsCount], but [newestThread] of the board still holds the creation
    time of the thread that is gone. *)
Theorem createThread_then_deleteThread c1 c2 k title body s b :
  upload_err c1 = false -> k ≠ ""%string ->
  blank title = false -> blank body = false ->
  threads s !! new_id c1 = None -> boards s !! k = Some b ->
  new_id c1 ≠ ""%string -> is_admin c2 = true ->
  exists b' s',
    deleteThread c2 (Some (new_id c1)) (createThread c1 (Some k) title body s).2
      = (Json (JMessage "Thread successfully deleted"), s') /\
    threads s' = threads s /\
    boards s' !! k = Some b' /\
    Board.threadsCount b' = Board.threadsCount b /\
    Board.newestThread b' = Some (now c1) /\
    (forall j, j ≠ k -> boards s' !! j = boards s !! j).
Proof.
  intros Hup Hk Htitle Hbody Hfresh Hb Hid Hadmin.
  rewrite (createThread_run c1 k title body s Hup Hk Htitle Hbody Hfresh). simpl.
  exists (board_thread_deleted (board_thread_created (now c1) b)). eexists. split.
  { apply deleteThread_run; [done|done|]. simpl. apply lookup_insert_eq. }
  simpl. split; [by rewrite delete_insert_eq, delete_id|].
  split; [by rewrite !lookup_alter_eq, Hb|].
  split; [lia|]. split; [done|].
  intros j Hj. by rewrite !lookup_alter_ne.
Qed.

Lemma createThread_then_deleteThread_witness :
  exists b' s',
    deleteThread Demo.moderator (Some "5f00000000000000000000c2")
      (createThread (Demo.request Demo.bob "2021-01-01T10:25:00.000Z"
                       "5f00000000000000000000c2")
         (Some Demo.b1) (str "Second") (str "Another one") Demo.forum).2
      = (Json (JMessage "Thread successfully deleted"), s') /\
    boards s' !! Demo.b1 = Some b' /\
    Board.threadsCount b' = 1 /\
    Board.newestThread b' = Some "2021-01-01T10:25:00.000Z"%string.
Proof.
  destruct (createThread_then_deleteThread
              (Demo.request Demo.bob "2021-01-01T10:25:00.000Z" "5f00000000000000000000c2")
              Demo.moderator Demo.b1 (str "Second") (str "Another one") Demo.forum
              Demo.the_board)
    as (b' & s' & Hrun & _ & Hb' & Hcount & Hnew & _);
    [reflexivity | discriminate | vm_compute; reflexivity | vm_compute; reflexivity
    | vm_compute; reflexivity | vm_compute; reflexivity | discriminate | reflexivity |].
  exists b', s'. split; [exact Hrun|]. split; [exact Hb'|]. by rewrite Hcount, Hnew.
Defined.

(** ** [Board.threadsCount] against the threads *)

Lemma threadsCount_delta c m s k b b' :
  boards s !! k = Some b -> boards (handle c m s).2 !! k = Some b' ->
  Board.threadsCount b' - Board.threadsCount b
    = count_board_threads (handle c m s).2 k - count_board_threads s k.
Proof.
  unfold count_board_threads.
  destruct m; run_handler; simpl; split_guards;
    try (intros; simplify_eq; lia);
    known_id; unfold updateOne, delete_doc; simpl;
    try match goal with
        | |- context [match ?i with Some _ => _ | None => _ end] => destruct i
        end;
    rewrite ?count_alter by (by intros []);
    intros Hb Hb'; try board_lookup; try (simpl in Hb'); simplify_eq; simpl;
    try lia.
  - rewrite count_insert_fresh by done. simpl. rewrite decide_True by done. lia.
  - rewrite count_insert_fresh by done. simpl. rewrite decide_False by done. lia.
  - match goal with
    | Ht : threads s !! ?j = Some ?t |- _ =>
        rewrite (count_delete Thread.boardId (Thread.boardId t) j t (threads s) Ht)
    end.
    rewrite decide_True by done. lia.
  - match goal with
    | Ht : threads s !! ?j = Some ?t |- _ =>
        rewrite (count_delete Thread.boardId k j t (threads s) Ht)
    end.
    rewrite decide_False by done. lia.
Qed.

(** X21: [Board.threadsCount] moves with the threads.  Over any request,
    for a board that is there before and after, the change of its
    [threadsCount] is the change in the number of threads whose [boardId] is
    the board's id. *)
Theorem threadsCount_follows_threads c m s k b b' :
  boards s !! k = Some b -> boards (handle c m s).2 !! k = Some b' ->
  Board.threadsCount b' - Board.threadsCount b
    = count_board_threads (handle c m s).2 k - count_board_threads s k.
Proof. apply threadsCount_delta. Qed.

Lemma threadsCount_follows_threads_witness :
  boards Demo.forum !! Demo.b1 = Some Demo.the_board /\
  exists b',
    boards (handle Demo.moderator (DeleteThread (Some Demo.t1)) Demo.forum).2 !! Demo.b1
      = Some b' /\
    Board.threadsCount b' - Board.threadsCount Demo.the_board
      = count_board_threads
          (handle Demo.moderator (DeleteThread (Some Demo.t1)) Demo.forum).2 Demo.b1
        - count_board_threads Demo.forum Demo.b1.
Proof.
  split; [vm_compute; reflexivity|]. eexists. split; [vm_compute; reflexivity|].
  apply (threadsCount_follows_threads Demo.moderator (DeleteThread (Some Demo.t1))
           Demo.forum Demo.b1); vm_compute; reflexivity.
Defined.

(** ** Validation and truncation *)

Lemma trimStart_nil (s : jsstring) :
  trimStart s = [] <-> Forall (fun u => is_ws u = true) s.
Proof.
  induction s as [|u s IH]; simpl; [by split|].
  destruct (is_ws u) eqn:Hu.
  - rewrite IH. split; [by constructor | by inversion 1].
  - split; [done | inversion 1; congruence].
Qed.

Lemma trimStart_fixed (s : jsstring) : trimStart (trimStart s) = trimStart s.
Proof.
  induction s as [|u s IH]; simpl; [done|].
  destruct (is_ws u) eqn:Hu; [done|]. simpl. by rewrite Hu.
Qed.

(** A string is blank exactly when all its code units are white space. *)
Lemma blank_spec (s : jsstring) :
  blank s = true <-> Forall (fun u => is_ws u = true) s.
Proof.
  unfold blank, trim, trimEnd. rewrite bool_decide_eq_true. split.
  - intros Hnil. apply (f_equal (@rev N)) in Hnil. rewrite rev_involutive in Hnil. simpl in Hnil.
    apply trimStart_nil in Hnil. apply Forall_rev in Hnil. rewrite rev_involutive in Hnil.
    apply trimStart_nil. rewrite <-trimStart_fixed. by apply trimStart_nil.
  - intros Hall. apply trimStart_nil in Hall. by rewrite Hall.
Qed.

(** X22: createThread turns a title down exactly when the title is white
    space from end to end (the empty title included): that, and nothing
    else about the title, gives the BadRequest for the title, and nothing
    is written.  White space is what [trim] strips, the Unicode spaces and
    line ends among it. *)
Theorem createThread_rejects_blank_title c k title body s :
  upload_err c = false -> k ≠ ""%string ->
  createThread c (Some k) title body s
    = (BadRequest "Thread title must not be empty", s)
  <-> Forall (fun u => is_ws u = true) title.
Proof.
  intros Hup Hk. rewrite <-blank_spec. run_handler.
  rewrite Hup, (missing_false k Hk). simpl.
  destruct (blank title); simpl; [done|].
  split; [|done]. destruct (blank body); simpl; [discriminate|].
  destruct (threads s !! new_id c); simpl; discriminate.
Qed.

Lemma createThread_rejects_blank_title_witness :
  createThread (Demo.request Demo.bob "2021-01-01T10:30:00.000Z" "5f00000000000000000000c2")
    (Some Demo.b1) [32; 160; 12288; 9; 8232]%N (str "Hello") Demo.forum
  = (BadRequest "Thread title must not be empty", Demo.forum).
Proof.
  apply (createThread_rejects_blank_title
           (Demo.request Demo.bob "2021-01-01T10:30:00.000Z" "5f00000000000000000000c2")
           Demo.b1); [reflexivity | discriminate |].
  repeat constructor.
Defined.

(** X23: the title is checked before it is cut.  A title that opens with
    100 or more code units of white space and has something else after them
    passes the check, and the thread is stored with a title that is all
    white space. *)
Theorem createThread_can_store_blank_title c k pre rest body s :
  upload_err c = false -> k ≠ ""%string ->
  Forall (fun u => is_ws u = true) pre -> (100 <= length pre)%nat ->
  blank (pre ++ rest) = false -> blank body = false ->
  threads s !! new_id c = None ->
  exists t s',
    createThread c (Some k) (pre ++ rest) body s = (Json (JThread (Some t)), s') /\
    threads s' !! new_id c = Some t /\
    blank (Thread.title t) = true.
Proof.
  intros Hup Hk Hpre Hlen Htitle Hbody Hfresh. do 2 eexists.
  split; [by apply createThread_run|]. simpl. split; [apply lookup_insert_eq|].
  apply blank_spec. rewrite take_app_le by done. by apply Forall_take.
Qed.

Lemma createThread_can_store_blank_title_witness :
  exists t,
    (createThread (Demo.request Demo.bob "2021-01-01T10:30:00.000Z"
                     "5f00000000000000000000c2")
       (Some Demo.b1) (repeat 32%N 100 ++ str "Hi") (str "Hello") Demo.forum).1
      = Json (JThread (Some t)) /\
    blank (Thread.title t) = true.
Proof.
  destruct (createThread_can_store_blank_title
              (Demo.request Demo.bob "2021-01-01T10:30:00.000Z" "5f00000000000000000000c2")
              Demo.b1 (repeat 32%N 100) (str "Hi") (str "Hello") Demo.forum)
    as (t & s' & Hrun & _ & Hblank);
    [reflexivity | discriminate
    | apply List.Forall_forall; intros u ->%repeat_spec; reflexivity
    | by rewrite repeat_length
    | vm_compute; reflexivity | vm_compute; reflexivity | vm_compute; reflexivity |].
  exists t. by rewrite Hrun.
Defined.

(** ** The size of the likes *)



(** ** Witnesses on reachable states *)


Lemma reachable_lengths_capped_witness :
  exists t, threads Tour.capped !! Tour.t2 = Some t /\
            (length (Thread.title t) <= 100 /\ length (Thread.body t) <= 1000)%nat.
Proof.
  destruct (reachable_lengths_capped Tour.capped) as [Hthreads _].
  { exists Tour.long_posts. vm_compute. reflexivity. }
  eexists. split; [vm_compute; reflexivity|].
  apply (Hthreads Tour.t2). vm_compute. reflexivity.
Defined.


Lemma reachable_thread_counters_ok_witness :
  exists t, threads Demo.after_deleteAnswer !! Demo.t1 = Some t /\
            Thread.answersCount t = count_thread_answers Demo.after_deleteAnswer Demo.t1.
Proof.
  eexists. split; [vm_compute; reflexivity|].
  apply (reachable_thread_counters_ok Demo.after_deleteAnswer).
  - eexists. reflexivity.
  - vm_compute. reflexivity.
Defined.

(** ** Attachments *)





(** ** Reading a thread back *)



(** X27: what getThread sends after a deletion.  Once an admin has deleted
    the board, each of its threads is still served, with [null] for the
    board; once an admin has deleted the thread, getThread on its id ends in
    the catch branch (an internal error, not a not-found answer). *)
Theorem getThread_after_deletions c k s t :
  is_admin c = true -> k ≠ ""%string -> threads s !! k = Some t ->
  (Thread.boardId t ≠ ""%string -> is_Some (boards s !! Thread.boardId t) ->
   getThread (Some k) (deleteBoard c (Some (Thread.boardId t)) s).2 = ThreadPage None t) /\
  getThread (Some k) (deleteThread c (Some k) s).2 = ThreadError InternalServerError.
Proof.
  intros Hadmin Hk Ht. split.
  - intros Hbid [b Hb].
    destruct (deleteBoard_orphans c _ s b Hadmin Hbid Hb)
      as (s' & -> & Hboards & Hthreads & _). simpl.
    unfold getThread. rewrite (missing_false _ Hk). simpl.
    rewrite Hthreads, Ht, Hboards. by rewrite lookup_delete_eq.
  - rewrite (deleteThread_run c k s t Hadmin Hk Ht). simpl.
    unfold getThread. rewrite (missing_false _ Hk). simpl.
    by rewrite lookup_delete_eq.
Qed.

Lemma getThread_after_deletions_witness :
  getThread (Some Demo.t1) (deleteBoard Demo.moderator (Some Demo.b1) Demo.forum).2
    = ThreadPage None Demo.the_thread /\
  getThread (Some Demo.t1) (deleteThread Demo.moderator (Some Demo.t1) Demo.forum).2
    = ThreadError InternalServerError.
Proof.
  destruct (getThread_after_deletions Demo.moderator Demo.t1 Demo.forum Demo.the_thread)
    as [Hboard Hthread]; [reflexivity | discriminate | vm_compute; reflexivity |].
  split; [|exact Hthread].
  apply Hboard; [discriminate|]. exists Demo.the_board. vm_compute. reflexivity.
Defined.
